(** * Inventory record store: tools and baby parts services

    A shallow embedding of [backend/services/tool_service.py] and
    [backend/services/baby_part_service.py].

    - Python scalars are the type [pyval]; a float is NaN, an infinity or
      a signed dyadic rational (what a finite binary64 is).
    - Text is a Rocq [string]; whitespace and letter case are those of
      ASCII.  The Unicode normalisation [unicodedata.normalize('NFKC', _)]
      and the decimal rendering of a finite float are library routines kept
      abstract in the class [PyRuntime].
    - A dict is a [gmap string pyval]; a pandas frame is a column list plus
      one dict of cells per row (an absent cell reads as NaN).
    - File access is explicit state passing over [FileState]; exceptions
      are the [Raise] results of [result]. *)

From Stdlib Require Import ZArith Lia Bool.
From Stdlib Require Import Ascii String DecimalString DecimalPos.
From stdpp Require Import base option strings list gmap.

Open Scope string_scope.
Open Scope Z_scope.

(* ================================================================== *)
(** ** Python values, exceptions *)
(* ================================================================== *)

Module Py.

(** A Python float: NaN, a signed infinity, or (-1)^neg * m * 2^e. *)
Inductive pyfloat :=
| FNaN
| FInf (neg : bool)
| FFin (neg : bool) (m : N) (e : Z).

Inductive pyval :=
| PNone
| PBool (b : bool)
| PInt (z : Z)
| PFloat (f : pyfloat)
| PStr (s : string).

(** The exception classes the services raise or catch. *)
Inductive exn_class :=
| ValueError | TypeError | OverflowError | KeyError
| FileNotFoundError | PermissionError | OSError | OtherException.

Record py_exn := Exn {
  exn_class_of : exn_class;
  exn_errno : option Z;
  exn_msg : string          (* str(e) *)
}.

Inductive result (A : Type) :=
| Ok (a : A)
| Raise (e : py_exn).
Arguments Ok {A} a.
Arguments Raise {A} e.

Definition exn_class_eqb (a b : exn_class) : bool :=
  match a, b with
  | ValueError, ValueError | TypeError, TypeError
  | OverflowError, OverflowError | KeyError, KeyError
  | FileNotFoundError, FileNotFoundError
  | PermissionError, PermissionError | OSError, OSError
  | OtherException, OtherException => true
  | _, _ => false
  end.

(** [issubclass]: PermissionError and FileNotFoundError derive from
    OSError ([IOError] is the same class as OSError); everything derives
    from Exception. *)
Definition is_subclass (c parent : exn_class) : bool :=
  match parent with
  | OtherException => true
  | OSError =>
      match c with
      | OSError | PermissionError | FileNotFoundError => true
      | _ => false
      end
  | _ => exn_class_eqb c parent
  end.

Definition isinstance (e : py_exn) (cs : list exn_class) : bool :=
  existsb (is_subclass (exn_class_of e)) cs.

Definition raise {A} (c : exn_class) (msg : string) : result A :=
  Raise (Exn c None msg).

Definition bind {A B} (r : result A) (k : A -> result B) : result B :=
  match r with
  | Ok a => k a
  | Raise e => Raise e
  end.

(** [try: body except (cs): handler] *)
Definition try_except {A} (body : result A) (cs : list exn_class)
    (handler : py_exn -> result A) : result A :=
  match body with
  | Ok a => Ok a
  | Raise e => if isinstance e cs then handler e else Raise e
  end.

(* ------------------------------------------------------------------ *)
(** *** Text *)

Definition code (c : ascii) : Z := Z.of_nat (nat_of_ascii c).

(** [str.isspace] on ASCII: TAB..CR, FS..US and the blank. *)
Definition is_space (c : ascii) : bool :=
  let n := code c in
  ((9 <=? n) && (n <=? 13)) || ((28 <=? n) && (n <=? 32)).

Definition is_digit (c : ascii) : bool :=
  let n := code c in (48 <=? n) && (n <=? 57).

Definition is_upper (c : ascii) : bool :=
  let n := code c in (65 <=? n) && (n <=? 90).

Definition is_lower (c : ascii) : bool :=
  let n := code c in (97 <=? n) && (n <=? 122).

Definition lower_char (c : ascii) : ascii :=
  if is_upper c then ascii_of_nat (nat_of_ascii c + 32) else c.

(** [str.lower] *)
Fixpoint lower (s : string) : string :=
  match s with
  | EmptyString => EmptyString
  | String c s' => String (lower_char c) (lower s')
  end.

Fixpoint lstrip (s : string) : string :=
  match s with
  | EmptyString => EmptyString
  | String c s' => if is_space c then lstrip s' else s
  end.

Fixpoint rstrip (s : string) : string :=
  match s with
  | EmptyString => EmptyString
  | String c s' =>
      match rstrip s' with
      | EmptyString => if is_space c then EmptyString else String c EmptyString
      | r => String c r
      end
  end.

(** [str.strip] *)
Definition strip (s : string) : string := rstrip (lstrip s).

Definition str_eqb (a b : string) : bool := String.eqb a b.

Fixpoint starts_with (p s : string) : bool :=
  match p, s with
  | EmptyString, _ => true
  | String a p', String b s' => Ascii.eqb a b && starts_with p' s'
  | String _ _, EmptyString => false
  end.

(** [needle in s] *)
Fixpoint contains (needle s : string) : bool :=
  starts_with needle s ||
  match s with
  | EmptyString => false
  | String _ s' => contains needle s'
  end.

(** [str(z)] for an int *)
Definition str_of_Z (z : Z) : string := NilZero.string_of_int (Z.to_int z).

(** What the embedding takes from the Python runtime without modelling
    it: NFKC normalisation and [repr] of a finite float. *)
Class PyRuntime := {
  nfkc : string -> string;
  repr_finite : bool -> N -> Z -> string
}.

Definition str_of_float `{PyRuntime} (f : pyfloat) : string :=
  match f with
  | FNaN => "nan"
  | FInf false => "inf"
  | FInf true => "-inf"
  | FFin neg m e => repr_finite neg m e
  end.

(** [str(v)] *)
Definition str `{PyRuntime} (v : pyval) : string :=
  match v with
  | PNone => "None"
  | PBool true => "True"
  | PBool false => "False"
  | PInt z => str_of_Z z
  | PFloat f => str_of_float f
  | PStr s => s
  end.

(* ------------------------------------------------------------------ *)
(** *** Numbers *)

(** The numeric value n * 2^e of a number, when it has one. *)
Definition num_of (v : pyval) : option (Z * Z) :=
  match v with
  | PBool b => Some (if b then 1 else 0, 0)
  | PInt z => Some (z, 0)
  | PFloat (FFin neg m e) => Some (if neg then - Z.of_N m else Z.of_N m, e)
  | _ => None
  end.

Definition dyadic_eqb (a b : Z * Z) : bool :=
  let '(n1, e1) := a in
  let '(n2, e2) := b in
  let e := Z.min e1 e2 in
  n1 * 2 ^ (e1 - e) =? n2 * 2 ^ (e2 - e).

(** [a == b] *)
Definition py_eqb (a b : pyval) : bool :=
  match a, b with
  | PNone, PNone => true
  | PStr s, PStr t => str_eqb s t
  | PFloat (FInf n1), PFloat (FInf n2) => Bool.eqb n1 n2
  | _, _ =>
      match num_of a, num_of b with
      | Some x, Some y => dyadic_eqb x y
      | _, _ => false
      end
  end.

(** [a != b] *)
Definition py_neqb (a b : pyval) : bool := negb (py_eqb a b).

(** [bool(v)] *)
Definition truthy (v : pyval) : bool :=
  match v with
  | PNone => false
  | PBool b => b
  | PInt z => negb (z =? 0)
  | PFloat (FFin _ m _) => negb (m =? 0)%N
  | PFloat _ => true
  | PStr s => negb (str_eqb s "")
  end.

(** [a or b] *)
Definition py_or (a b : pyval) : pyval := if truthy a then a else b.

(** [float.is_integer] *)
Definition is_integer (f : pyfloat) : bool :=
  match f with
  | FFin _ m e => (0 <=? e) || (Z.of_N m mod 2 ^ (- e) =? 0)
  | _ => false
  end.

(** [int(f)] for a float: truncation toward zero. *)
Definition int_of_float (f : pyfloat) : result Z :=
  match f with
  | FNaN => raise ValueError "cannot convert float NaN to integer"
  | FInf _ => raise OverflowError "cannot convert float infinity to integer"
  | FFin neg m e =>
      let a := Z.shiftl (Z.of_N m) e in
      Ok (if neg then - a else a)
  end.

(** n / den rounded to the nearest integer, ties to even. *)
Definition round_div (n den : Z) : Z :=
  let q := n / den in
  let r := n mod den in
  match 2 * r ?= den with
  | Lt => q
  | Gt => q + 1
  | Eq => if Z.even q then q else q + 1
  end.

(** The binary64 nearest to n / den (n >= 0, den > 0). *)
Definition float_of_ratio (neg : bool) (n den : Z) : pyfloat :=
  if n =? 0 then FFin neg 0 0
  else
    let k0 := Z.log2 n - Z.log2 den in
    let below :=
      if 0 <=? k0 then n <? den * 2 ^ k0 else n * 2 ^ (- k0) <? den in
    let k := if below then k0 - 1 else k0 in
    let e := Z.max (k - 52) (-1074) in
    let m :=
      if 0 <=? e then round_div n (den * 2 ^ e)
      else round_div (n * 2 ^ (- e)) den in
    if (0 <=? e) && (2 ^ 1024 <=? m * 2 ^ e) then FInf neg
    else FFin neg (Z.to_N m) e.

(** The binary64 nearest to d * 10^x. *)
Definition float_of_decimal (neg : bool) (d x : Z) : pyfloat :=
  if 0 <=? x then float_of_ratio neg (d * 10 ^ x) 1
  else float_of_ratio neg d (10 ^ (- x)).

Definition digit_val (c : ascii) : Z := code c - 48.

(** A digit part [digit (["_"] digit)*]: accumulated value, number of
    digits read, and the unread rest. *)
Fixpoint scan_digits (s : string) (acc cnt : Z) : Z * Z * string :=
  match s with
  | EmptyString => (acc, cnt, s)
  | String c s' =>
      if is_digit c then scan_digits s' (10 * acc + digit_val c) (cnt + 1)
      else if Ascii.eqb c "_" && (0 <? cnt) then
        match s' with
        | String d s'' =>
            if is_digit d
            then scan_digits s'' (10 * acc + digit_val d) (cnt + 1)
            else (acc, cnt, s)
        | EmptyString => (acc, cnt, s)
        end
      else (acc, cnt, s)
  end.

Definition scan_sign (s : string) : bool * string :=
  match s with
  | String "-" s' => (true, s')
  | String "+" s' => (false, s')
  | _ => (false, s)
  end.

(** The text accepted by [float(s)], after stripping:
    [sign] ("inf" | "infinity" | "nan" | decimal with optional exponent). *)
Definition parse_float (s : string) : option pyfloat :=
  let '(neg, s1) := scan_sign (strip s) in
  let w := lower s1 in
  if str_eqb w "inf" || str_eqb w "infinity" then Some (FInf neg)
  else if str_eqb w "nan" then Some FNaN
  else
    let '(ip, ni, s2) := scan_digits s1 0 0 in
    let '(fp, nf, s3) :=
      match s2 with
      | String "." s2' => scan_digits s2' ip 0
      | _ => (ip, 0, s2)
      end in
    if ni + nf =? 0 then None
    else
      match s3 with
      | EmptyString => Some (float_of_decimal neg fp (- nf))
      | String c s4 =>
          if Ascii.eqb c "e" || Ascii.eqb c "E" then
            let '(eneg, s5) := scan_sign s4 in
            let '(ev, ne, s6) := scan_digits s5 0 0 in
            if (0 <? ne) && str_eqb s6 ""
            then Some (float_of_decimal neg fp ((if eneg then - ev else ev) - nf))
            else None
          else None
      end.

(** [float(s)] for a str *)
Definition float_of_str (s : string) : result pyfloat :=
  match parse_float s with
  | Some f => Ok f
  | None => raise ValueError ("could not convert string to float: '" +:+ s +:+ "'")
  end.

(** [float(str(v).strip())].  For a float [v], [str] is [repr], which
    [float] reads back to the same float, so the composition is the
    identity there. *)
Definition float_of_str_of `{PyRuntime} (v : pyval) : result pyfloat :=
  match v with
  | PFloat f => Ok f
  | _ => float_of_str (strip (str v))
  end.

(** [pd.isna(v)] on a scalar *)
Definition pd_isna (v : pyval) : bool :=
  match v with
  | PNone | PFloat FNaN => true
  | _ => false
  end.

End Py.

Export Py.

#[export] Instance pyfloat_eq_dec : EqDecision pyfloat.
Proof. solve_decision. Defined.

#[export] Instance pyval_eq_dec : EqDecision pyval.
Proof. solve_decision. Defined.

Abbreviation dict := (gmap string pyval).

(** [d.get(k)] and [d.get(k, dflt)] *)
Definition dget (d : dict) (k : string) : pyval := default PNone (d !! k).
Definition dget_or (d : dict) (k : string) (dflt : pyval) : pyval :=
  default dflt (d !! k).

(** A dict literal, later entries overriding earlier ones. *)
Definition dict_of (l : list (string * pyval)) : dict :=
  list_to_map (rev l).

Definition nl : string := String (ascii_of_nat 10) EmptyString.

(** [str(list_of_str)], as in an f-string. *)
Definition repr_str_list (l : list string) : string :=
  "[" +:+ String.concat ", " (map (fun s => "'" +:+ s +:+ "'") l) +:+ "]".

(* ================================================================== *)
(** ** Data frames *)
(* ================================================================== *)

Module Pandas.

(** A frame: its column labels in order and, per row, the cells by
    label.  A label without a cell reads as NaN. *)
Record DataFrame := {
  columns : list string;
  rows : list dict
}.

Definition NaN : pyval := PFloat FNaN.

Definition cell (r : dict) (c : string) : pyval := default NaN (r !! c).

(** [c in df.columns] *)
Definition has_column (df : DataFrame) (c : string) : bool :=
  existsb (str_eqb c) (columns df).

(** [df[mask]] with the mask computed row by row *)
Definition select_rows (p : dict -> bool) (df : DataFrame) : DataFrame :=
  {| columns := columns df; rows := List.filter p (rows df) |}.

Definition notna (v : pyval) : bool := negb (pd_isna v).

(** [df.empty] for a frame that has columns *)
Definition empty (df : DataFrame) : bool :=
  match rows df with [] => true | _ => false end.

(** [df[name] = series], the series given row by row: an existing label
    is overwritten in place, a new one goes last. *)
Definition assign_column (df : DataFrame) (name : string)
    (f : dict -> pyval) : DataFrame :=
  {| columns := if has_column df name then columns df
                else columns df ++ [name];
     rows := map (fun r => <[name := f r]> r) (rows df) |}.

(** One row of [df.to_dict(orient="records")]. *)
Definition to_record (cols : list string) (r : dict) : dict :=
  dict_of (map (fun c => (c, cell r c)) cols).

Definition to_dict_records (df : DataFrame) : list dict :=
  map (to_record (columns df)) (rows df).

(** [df.rename(columns=f)] where [f] leaves unmapped labels alone *)
Definition rename (f : string -> string) (df : DataFrame) : DataFrame :=
  {| columns := map f (columns df);
     rows := map (fun r => dict_of (map (fun c => (f c, cell r c)) (columns df)))
                 (rows df) |}.

(** [df[cols]] for labels of the frame *)
Definition select_columns (cols : list string) (df : DataFrame) : DataFrame :=
  {| columns := cols; rows := map (to_record cols) (rows df) |}.

End Pandas.

Export Pandas.

(* ================================================================== *)
(** ** The backing file *)
(* ================================================================== *)

(** What a service sees of its CSV file.  [open_rw_errno] is the errno of
    the OSError that [open(path, 'r+')] raises, if it raises;
    [to_csv_error] the exception [DataFrame.to_csv] raises, if it does.
    [writes] counts the completed overwrites. *)
Record FileState := {
  file_path : string;
  file_exists : bool;
  file_writable : bool;
  open_rw_errno : option Z;
  to_csv_error : option py_exn;
  file_table : DataFrame;
  writes : nat
}.

(** Computations that read and write the file and may raise. *)
Definition M (A : Type) : Type := FileState -> result A * FileState.

Definition ret {A} (a : A) : M A := fun st => (Ok a, st).

Definition throw {A} (e : py_exn) : M A := fun st => (Raise e, st).

Definition lift {A} (r : result A) : M A := fun st => (r, st).

Definition mbind {A B} (m : M A) (k : A -> M B) : M B :=
  fun st =>
    match m st with
    | (Ok a, st') => k a st'
    | (Raise e, st') => (Raise e, st')
    end.

Notation "x <- m ;; k" := (mbind m (fun x => k))
  (at level 100, m at next level, right associativity).

Notation "x <~ r ;; k" := (Py.bind r (fun x => k))
  (at level 100, r at next level, right associativity).

(** [try: m except (cs): handler], in [M]. *)
Definition mtry {A} (m : M A) (cs : list exn_class)
    (handler : py_exn -> M A) : M A :=
  fun st =>
    match m st with
    | (Ok a, st') => (Ok a, st')
    | (Raise e, st') =>
        if isinstance e cs then handler e st' else (Raise e, st')
    end.

(** The OSError the operating system reports for [errno] on [path]:
    EACCES and EPERM are PermissionError, ENOENT is FileNotFoundError. *)
Definition strerror (n : Z) : string :=
  if n =? 13 then "Permission denied"
  else if n =? 1 then "Operation not permitted"
  else if n =? 2 then "No such file or directory"
  else if n =? 16 then "Device or resource busy"
  else "Unknown error " +:+ str_of_Z n.

Definition os_error (n : Z) (path : string) : py_exn :=
  Exn (if (n =? 13) || (n =? 1) then PermissionError
       else if n =? 2 then FileNotFoundError else OSError)
      (Some n)
      ("[Errno " +:+ str_of_Z n +:+ "] " +:+ strerror n +:+ ": '" +:+ path +:+ "'").

(** The file after a completed [to_csv] of the frame [t]. *)
Definition written (st : FileState) (t : DataFrame) : FileState :=
  {| file_path := file_path st;
     file_exists := true;
     file_writable := file_writable st;
     open_rw_errno := open_rw_errno st;
     to_csv_error := to_csv_error st;
     file_table := t;
     writes := S (writes st) |}.

(** [df.to_csv(path)]: on success the file holds the frame. *)
Definition to_csv (df : DataFrame) : M unit :=
  fun st =>
    match to_csv_error st with
    | Some e => (Raise e, st)
    | None => (Ok tt, written st df)
    end.

(* ================================================================== *)
(** ** The base service ([backend/services/base_service.py]) *)
(* ================================================================== *)

Module BaseService.

Definition is_alnum (c : ascii) : bool :=
  is_digit c || is_lower c || is_upper c.

Fixpoint collapse (s : string) (started pending : bool) : string :=
  match s with
  | EmptyString => EmptyString
  | String c s' =>
      if is_alnum c
      then (if started && pending then "_" else "")
             +:+ String c (collapse s' true false)
      else collapse s' started true
  end.

(** Modelled from the spec: the header canonicalisation of
    [read_csv_normalized] ([backend/utils/csv_utils.py] is not among the
    sources).  Lowercase; inner runs of blanks and punctuation become one
    underscore; an empty header gets the placeholder of its position. *)
Definition canonical_header (pos : nat) (h : string) : string :=
  match collapse (lower h) false false with
  | EmptyString => "unnamed_" +:+ str_of_Z (Z.of_nat pos)
  | s => s
  end.

Definition canonical_headers (hs : list string) : list string :=
  imap canonical_header hs.

Definition rename_by (old new : list string) (c : string) : string :=
  match list_find (fun p => p.1 = c) (zip old new) with
  | Some (_, (_, n)) => n
  | None => c
  end.

(** The table of the file under canonical column names. *)
Definition canonical_frame (t : DataFrame) : DataFrame :=
  {| columns := canonical_headers (columns t);
     rows := rows (rename (rename_by (columns t)
                             (canonical_headers (columns t))) t) |}.

(** Modelled from the spec: [BaseService._get_dataframe], the load of
    the backing file with canonical column names.  It reads and never
    writes. *)
Definition _get_dataframe : M DataFrame :=
  fun st =>
    if file_exists st then (Ok (canonical_frame (file_table st)), st)
    else
      (raise FileNotFoundError ("File not found: " +:+ file_path st), st).

Section Operations.
Context `{PyRuntime}.

(** The configuration of one entity service: its key column, its name,
    and the [_save_dataframe] it overrides. *)
Variable primary_key : string.
Variable entity_name : string.
Variable _save_dataframe : DataFrame -> M unit.

Definition key_text (r : dict) : string :=
  nfkc (strip (str (cell r primary_key))).

Definition blank_key (r : dict) : bool :=
  pd_isna (cell r primary_key)
  || str_eqb (strip (str (cell r primary_key))) "".

Fixpoint find_index {A} (p : A -> bool) (l : list A) : option nat :=
  match l with
  | [] => None
  | x :: l' => if p x then Some 0%nat else S <$> find_index p l'
  end.

(** Modelled from the spec: the Text Matcher as the base operations use
    it.  First an exact comparison of the trimmed, NFKC-normalised
    texts, then the same ignoring case; the first matching row wins.
    Rows with a blank key are no candidates, and without the key column
    nothing resolves. *)
Definition resolve (df : DataFrame) (key : string) : option nat :=
  let q := nfkc (strip key) in
  if negb (has_column df primary_key) then None
  else
    match find_index (fun r => negb (blank_key r) && str_eqb (key_text r) q)
            (rows df) with
    | Some i => Some i
    | None =>
        find_index (fun r => negb (blank_key r)
                             && str_eqb (lower (key_text r)) (lower q))
          (rows df)
    end.

Definition with_columns (df : DataFrame) (fields : dict) : list string :=
  columns df
  ++ List.filter (fun k => negb (has_column df k)) (map fst (map_to_list fields)).

(** A row written over row [i]: the given fields replace its cells. *)
Definition replace_row (df : DataFrame) (i : nat) (fields : dict) : DataFrame :=
  {| columns := with_columns df fields;
     rows := alter (fun r => fields ∪ r) i (rows df) |}.

Definition append_row (df : DataFrame) (fields : dict) : DataFrame :=
  {| columns := with_columns df fields;
     rows := rows df ++ [fields] |}.

Definition delete_row (df : DataFrame) (i : nat) : DataFrame :=
  {| columns := columns df; rows := delete i (rows df) |}.

Definition ack : dict := dict_of [("ok", PBool true)].

(** Modelled from the spec: [BaseService.update].  The key is resolved
    by the Text Matcher; a key that does not resolve makes the update an
    insert with the given key.  One save. *)
Definition update (key : pyval) (fields : dict) : M dict :=
  df <- _get_dataframe ;;
  let df' :=
    match resolve df (str key) with
    | Some i => replace_row df i fields
    | None => append_row df (<[primary_key := key]> fields)
    end in
  _ <- _save_dataframe df' ;;
  ret ack.

(** Modelled from the spec: [BaseService.delete].  NotFound when the
    key does not resolve, else the row is removed and the file saved. *)
Definition delete (key : pyval) : M dict :=
  df <- _get_dataframe ;;
  match resolve df (str key) with
  | None =>
      throw (Exn ValueError None (entity_name +:+ " not found"))
  | Some i =>
      _ <- _save_dataframe (delete_row df i) ;;
      ret ack
  end.

(** One record of a batch: skipped without a key, written over the row
    its key resolves to, appended otherwise. *)
Definition upsert_row (df : DataFrame) (record : dict) : DataFrame :=
  if negb (truthy (dget record primary_key)) then df
  else
    match resolve df (str (dget record primary_key)) with
    | Some i => replace_row df i record
    | None => append_row df record
    end.

(** Modelled from the spec: [BaseService.bulk_upsert].  One save for
    the whole batch; the acknowledgement counts the records taken. *)
Definition bulk_upsert (records : list dict) : M dict :=
  df <- _get_dataframe ;;
  _ <- _save_dataframe (foldl upsert_row df records) ;;
  ret (<["count" :=
           PInt (Z.of_nat (List.length
             (List.filter (fun r => truthy (dget r primary_key)) records)))]>
         ack).

End Operations.

End BaseService.

(* ================================================================== *)
(** ** [ToolService] ([backend/services/tool_service.py]) *)
(* ================================================================== *)

Module ToolService.
Section Service.
Context `{PyRuntime}.

Definition primary_key : string := "part_name".
Definition entity_name : string := "tool".

Definition _parse_number (value : pyval) : result Z :=
  try_except
    (if pd_isna value || py_eqb value (PStr "") then Ok 0
     else f <~ float_of_str_of value ;; int_of_float f)
    [ValueError; TypeError]
    (fun _ => Ok 0).

Definition _get_original_column_mapping : list (string * string) :=
  [ ("part_name", "Part Name");
    ("brand", "Brand");
    ("detail_specification", "Detail Specification");
    ("picture", "Picture");
    ("total", "Total");
    ("new", "NEW");
    ("old", "OLD");
    ("uom", "UOM");
    ("remark", "Remark") ].

Definition original_order : list string :=
  [ "Part Name"; "Brand"; "Detail Specification"; "Picture"; "Total";
    "NEW"; "OLD"; "UOM"; "Remark" ].

Definition mem (c : string) (l : list string) : bool := existsb (str_eqb c) l.

(** The frame [_save_dataframe] hands to [to_csv]. *)
Definition df_to_save (df : DataFrame) : DataFrame :=
  let column_mapping := _get_original_column_mapping in
  let rename_dict :=
    List.filter (fun kv => has_column df kv.1) column_mapping in
  let df_to_save :=
    match rename_dict with
    | [] => df
    | _ =>
        rename (fun c =>
                  match List.find (fun kv => str_eqb kv.1 c) rename_dict with
                  | Some kv => kv.2
                  | None => c
                  end) df
    end in
  let columns_to_include :=
    List.filter (fun col => has_column df_to_save col) original_order in
  let remaining_cols :=
    List.filter (fun col => negb (mem col columns_to_include))
      (columns df_to_save) in
  let final_columns := (columns_to_include ++ remaining_cols)%list in
  let df_to_save :=
    if negb (has_column df_to_save "Brand")
    then assign_column df_to_save "Brand" (fun _ => PStr "")
    else df_to_save in
  select_columns final_columns df_to_save.

Definition msg_read_only (path : string) : string :=
  "File '" +:+ path +:+ "' is read-only or locked. "
  +:+ "Please close the file if it's open in another application (Excel, Notepad, etc.) "
  +:+ "and ensure you have write permissions.".

Definition msg_locked (path : string) : string :=
  "Permission denied: Cannot write to file '" +:+ path +:+ "'. "
  +:+ "The file may be:" +:+ nl
  +:+ "1. Open in another application (Excel, Notepad, etc.) - Please close it" +:+ nl
  +:+ "2. Set to read-only - Check file properties and remove read-only attribute" +:+ nl
  +:+ "3. Locked by another process - Restart your computer if needed" +:+ nl
  +:+ "4. Protected by antivirus - Check antivirus settings".

Definition msg_cannot_access (path err : string) : string :=
  "Cannot access file '" +:+ path +:+ "'. " +:+ "Error: " +:+ err.

Definition msg_save_denied (path err : string) : string :=
  "Permission denied: Cannot save to file '" +:+ path +:+ "'. "
  +:+ "Error: " +:+ err +:+ nl
  +:+ "Please ensure:" +:+ nl
  +:+ "1. The file is not open in Excel, Notepad, or any other application" +:+ nl
  +:+ "2. You have write permissions to the file and directory" +:+ nl
  +:+ "3. The file is not set to read-only" +:+ nl
  +:+ "4. No antivirus is blocking file access".

Definition msg_cannot_write_close (path err : string) : string :=
  "Cannot write to file '" +:+ path +:+ "'. "
  +:+ "Error: " +:+ err +:+ nl
  +:+ "Please close the file if it's open in another application.".

Definition msg_cannot_write_ensure (path err : string) : string :=
  "Cannot write to file '" +:+ path +:+ "'. "
  +:+ "Error: " +:+ err +:+ nl
  +:+ "Please ensure the file is not open in another application.".

Definition msg_denied_generic (path : string) : string :=
  "Permission denied: Cannot save to file '" +:+ path +:+ "'. "
  +:+ "Please close the file if it's open in Excel, Notepad, or any other application, "
  +:+ "and ensure you have write permissions.".

(** The checks made when the file exists: the write permission bit,
    then a trial [open(path, 'r+')]. *)
Definition check_writable : M unit :=
  fun st =>
    let path := file_path st in
    if file_exists st then
      if negb (file_writable st) then
        (raise PermissionError (msg_read_only path), st)
      else
        match open_rw_errno st with
        | Some n =>
            let e := os_error n path in
            if bool_decide (exn_errno e = Some 13)
            then (raise PermissionError (msg_locked path), st)
            else (raise OSError (msg_cannot_access path (exn_msg e)), st)
        | None => (Ok tt, st)
        end
    else (Ok tt, st).

(** The inner [try] around [to_csv]. *)
Definition write_csv (df : DataFrame) : M unit :=
  fun st =>
    let path := file_path st in
    match to_csv df st with
    | (Ok u, st') => (Ok u, st')
    | (Raise e, st') =>
        if isinstance e [PermissionError]
        then (raise PermissionError (msg_save_denied path (exn_msg e)), st')
        else if isinstance e [OSError]
        then (raise OSError (msg_cannot_write_close path (exn_msg e)), st')
        else (Raise e, st')
    end.

(** The handlers of the outer [try], in their order. *)
Definition save_handlers (path : string) (e : py_exn) : py_exn :=
  if isinstance e [PermissionError] then e
  else if isinstance e [OSError]
  then Exn OSError None (msg_cannot_write_ensure path (exn_msg e))
  else
    let error_msg := exn_msg e in
    if contains "Permission denied" error_msg
       || contains "Errno 13" error_msg
       || contains "[Errno 13]" error_msg
    then Exn PermissionError None (msg_denied_generic path)
    else Exn OtherException None
           ("Failed to save " +:+ entity_name +:+ " data: " +:+ error_msg).

Definition _save_dataframe (df : DataFrame) : M unit :=
  fun st =>
    match (let df_to_save := df_to_save df in
           _ <- check_writable ;;
           write_csv df_to_save) st with
    | (Ok u, st') => (Ok u, st')
    | (Raise e, st') => (Raise (save_handlers (file_path st) e), st')
    end.

(** [possible_names] of [get_all] and [get_by_tools_name] *)
Definition possible_names (df : DataFrame) : list string :=
  List.filter (fun col => contains "part" (lower col)
                          && contains "name" (lower col))
    (columns df).

(** The dict both readers build from a row.  The three numbers are
    parsed in the order of the literal; a parse that raises ends the
    construction. *)
Definition normalized (part_name : string) (tool : dict) : result dict :=
  total <~ _parse_number (dget_or tool "total" (PInt 0)) ;;
  new <~ _parse_number (dget_or tool "new" (PInt 0)) ;;
  old <~ _parse_number (dget_or tool "old" (PInt 0)) ;;
  let text k dflt := PStr (strip (str (dget_or tool k (PStr dflt)))) in
  Ok (dict_of
    [ ("id", PStr part_name);
      ("tools_name", PStr part_name);
      ("current_stock", PInt total);
      ("stock_new", PInt new);
      ("stock_old", PInt old);
      ("stock_detail", text "detail_specification" "");
      ("photo", text "picture" "");
      ("uom", text "uom" "Pcs");
      ("remark", text "remark" "");
      ("description", text "detail_specification" "");
      ("Part Name", PStr part_name);
      ("Detail Specification", text "detail_specification" "");
      ("Picture", text "picture" "");
      ("Total", PInt total);
      ("NEW", PInt new);
      ("OLD", PInt old);
      ("UOM", text "uom" "Pcs");
      ("Remark", text "remark" "") ]).

(** The two row filters: key not NaN, key not blank. *)
Definition drop_empty_rows (part_name_col : string) (df : DataFrame) : DataFrame :=
  let df := select_rows (fun r => notna (cell r part_name_col)) df in
  select_rows
    (fun r => negb (str_eqb (strip (str (cell r part_name_col))) "")) df.

(** The loop of [get_all] over the records. *)
Fixpoint normalize_tools (part_name_col : string) (tools : list dict)
    : result (list dict) :=
  match tools with
  | [] => Ok []
  | tool :: rest =>
      let part_name := strip (str (dget_or tool part_name_col (PStr ""))) in
      if negb (truthy (PStr part_name)) then normalize_tools part_name_col rest
      else
        n <~ normalized part_name tool ;;
        ns <~ normalize_tools part_name_col rest ;;
        Ok (n :: ns)
  end.

(** [get_all], on the loaded frame. *)
Definition get_all_in (df : DataFrame) : result (list dict) :=
  let part_name_col :=
    if has_column df "part_name" then Some "part_name"
    else
      match possible_names df with
      | c :: _ => Some c
      | [] => None
      end in
  match part_name_col with
  | None => Ok []
  | Some part_name_col =>
      let df := drop_empty_rows part_name_col df in
      normalize_tools part_name_col (to_dict_records df)
  end.

Definition get_all : M (list dict) :=
  df <- BaseService._get_dataframe ;;
  lift (get_all_in df).

Definition normalized_col : string := "_normalized_part_name".

Definition msg_not_found (search_name : string) : string :=
  "Tool with part_name '" +:+ search_name +:+ "' not found".

Definition msg_no_column (df : DataFrame) : string :=
  "Part Name column not found in data. Available columns: "
  +:+ repr_str_list (columns df).

(** [get_by_tools_name], on the loaded frame. *)
Definition get_by_tools_name_in (df : DataFrame) (tools_name : string)
    : result dict :=
  let part_name_col :=
    if has_column df "part_name" then Some "part_name"
    else
      match possible_names df with
      | c :: _ => Some c
      | [] => None
      end in
  match part_name_col with
  | None => raise ValueError (msg_no_column df)
  | Some part_name_col =>
      let df := drop_empty_rows part_name_col df in
      let search_name := strip tools_name in
      let search_name_normalized := nfkc search_name in
      let df :=
        assign_column df normalized_col
          (fun r => PStr (nfkc (strip (str (cell r part_name_col))))) in
      let matching :=
        select_rows
          (fun r => py_eqb (cell r normalized_col)
                      (PStr search_name_normalized)) df in
      let matching :=
        if empty matching then
          select_rows
            (fun r => str_eqb (lower (str (cell r normalized_col)))
                        (lower search_name_normalized)) df
        else matching in
      match to_dict_records matching with
      | [] => raise ValueError (msg_not_found search_name)
      | tool :: _ =>
          let part_name :=
            strip (str (dget_or tool part_name_col (PStr ""))) in
          normalized part_name tool
      end
  end.

Definition get_by_tools_name (tools_name : string) : M dict :=
  df <- BaseService._get_dataframe ;;
  lift (get_by_tools_name_in df tools_name).

(** The local [normalize_value] of [update_by_tools_name]. *)
Definition normalize_value (value : pyval) : pyval :=
  match value with
  | PNone => PStr ""
  | PBool _ | PInt _ => value
  | PFloat f =>
      if is_integer f then
        match int_of_float f with
        | Ok z => PInt z
        | Raise _ => value
        end
      else value
  | PStr _ => PStr (strip (str value))
  end.

Definition current_data_of (part_name : pyval) (tool : dict) : result dict :=
  let text a b dflt :=
    PStr (strip (str (py_or (dget tool a) (py_or (dget tool b) (PStr dflt))))) in
  total <~ _parse_number
             (py_or (dget tool "current_stock") (py_or (dget tool "Total") (PInt 0))) ;;
  new <~ _parse_number
           (py_or (dget tool "stock_new") (py_or (dget tool "NEW") (PInt 0))) ;;
  old <~ _parse_number
           (py_or (dget tool "stock_old") (py_or (dget tool "OLD") (PInt 0))) ;;
  Ok (dict_of
    [ ("part_name", part_name);
      ("detail_specification",
        PStr (strip (str (py_or (dget tool "stock_detail")
                           (py_or (dget tool "Detail Specification")
                              (py_or (dget tool "detail_specification")
                                 (PStr "")))))));
      ("picture", text "photo" "Picture" "");
      ("total", PInt total);
      ("new", PInt new);
      ("old", PInt old);
      ("uom", text "uom" "UOM" "Pcs");
      ("remark", text "remark" "Remark" "") ]).

Definition new_data_of (part_name : pyval) (updated_data : dict) : result dict :=
  let new_part_name :=
    py_or (dget updated_data "tools_name")
      (dget_or updated_data "Part Name" part_name) in
  let text a b dflt :=
    PStr (strip (str (py_or (dget updated_data a)
                        (py_or (dget updated_data b) (PStr dflt))))) in
  total <~ _parse_number
             (py_or (dget updated_data "current_stock")
                (py_or (dget updated_data "Total") (PInt 0))) ;;
  new <~ _parse_number
           (py_or (dget updated_data "stock_new")
              (py_or (dget updated_data "NEW") (PInt 0))) ;;
  old <~ _parse_number
           (py_or (dget updated_data "stock_old")
              (py_or (dget updated_data "OLD") (PInt 0))) ;;
  Ok (dict_of
    [ ("part_name", new_part_name);
      ("detail_specification",
        PStr (strip (str (py_or (dget updated_data "stock_detail")
                           (py_or (dget updated_data "Detail Specification")
                              (py_or (dget updated_data "description")
                                 (PStr "")))))));
      ("picture", text "photo" "Picture" "");
      ("total", PInt total);
      ("new", PInt new);
      ("old", PInt old);
      ("uom", text "uom" "UOM" "Pcs");
      ("remark", text "remark" "Remark" "") ]).

Definition differs (current_data new_data : dict) (field : string) : bool :=
  py_neqb (normalize_value (dget current_data field))
          (normalize_value (dget new_data field)).

(** The [if]/[elif] chain that sets [has_changes]. *)
Definition has_changes (current_data new_data : dict) : bool :=
  if differs current_data new_data "part_name" then true
  else if differs current_data new_data "detail_specification" then true
  else if differs current_data new_data "picture" then true
  else if differs current_data new_data "total" then true
  else if differs current_data new_data "new" then true
  else if differs current_data new_data "old" then true
  else if differs current_data new_data "uom" then true
  else if differs current_data new_data "remark" then true
  else false.

Definition no_changes_response : dict :=
  dict_of [ ("ok", PBool true);
            ("message", PStr "No changes detected");
            ("no_changes", PBool true) ].

Definition update_csv_data (new_data : dict) : dict :=
  dict_of
    [ ("part_name", dget new_data "part_name");
      ("brand", PStr "");
      ("detail_specification", dget new_data "detail_specification");
      ("picture", dget new_data "picture");
      ("total", dget new_data "total");
      ("new", dget new_data "new");
      ("old", dget new_data "old");
      ("uom", dget new_data "uom");
      ("remark", dget new_data "remark") ].

Definition exact_name (tool : dict) (tools_name : string) : pyval :=
  py_or (dget tool "Part Name") (py_or (dget tool "tools_name") (PStr tools_name)).

Definition update_by_tools_name (tools_name : string) (updated_data : dict)
    : M dict :=
  found <- mtry (tool <- get_by_tools_name tools_name ;;
                 ret (exact_name tool tools_name, Some tool))
             [ValueError]
             (fun _ => ret (PStr tools_name, None)) ;;
  let '(part_name, tool) := found in
  current_data <- lift (match tool with
                        | Some tool => current_data_of part_name tool
                        | None => Ok ∅
                        end) ;;
  new_data <- lift (new_data_of part_name updated_data) ;;
  if match tool with
     | Some _ => negb (has_changes current_data new_data)
     | None => false
     end
  then ret no_changes_response
  else
    BaseService.update primary_key _save_dataframe part_name
      (update_csv_data new_data).

Definition delete_by_tools_name (tools_name : string) : M dict :=
  tool <- get_by_tools_name tools_name ;;
  let part_name := exact_name tool tools_name in
  BaseService.delete primary_key entity_name _save_dataframe part_name.

(** One step of the loop of [bulk_upsert]: [None] is [continue]. *)
Definition bulk_csv_data (tool_data : dict) : option (result dict) :=
  let part_name :=
    py_or (dget tool_data "tools_name")
      (py_or (dget tool_data "Part Name")
         (dget_or tool_data "TOOLS NAME" (PStr ""))) in
  if negb (truthy part_name) then None
  else Some (
    total <~ _parse_number
               (py_or (dget tool_data "current_stock")
                  (dget_or tool_data "Total" (PInt 0))) ;;
    new <~ _parse_number
             (py_or (dget tool_data "stock_new")
                (dget_or tool_data "NEW" (PInt 0))) ;;
    old <~ _parse_number
             (py_or (dget tool_data "stock_old")
                (dget_or tool_data "OLD" (PInt 0))) ;;
    Ok (dict_of
      [ ("part_name", part_name);
        ("brand", PStr "");
        ("detail_specification",
          py_or (dget tool_data "stock_detail")
            (py_or (dget tool_data "Detail Specification")
               (dget_or tool_data "description" (PStr ""))));
        ("picture",
          py_or (dget tool_data "photo") (dget_or tool_data "Picture" (PStr "")));
        ("total", PInt total);
        ("new", PInt new);
        ("old", PInt old);
        ("uom", py_or (dget tool_data "uom") (dget_or tool_data "UOM" (PStr "Pcs")));
        ("remark",
          py_or (dget tool_data "remark") (dget_or tool_data "Remark" (PStr ""))) ])).

Fixpoint normalize_batch (tools_data : list dict) : result (list dict) :=
  match tools_data with
  | [] => Ok []
  | tool_data :: rest =>
      match bulk_csv_data tool_data with
      | None => normalize_batch rest
      | Some csv_data =>
          c <~ csv_data ;;
          cs <~ normalize_batch rest ;;
          Ok (c :: cs)
      end
  end.

Definition bulk_upsert (tools_data : list dict) : M dict :=
  match tools_data with
  | [] => throw (Exn ValueError None "No data provided")
  | _ =>
      normalized_tools <- lift (normalize_batch tools_data) ;;
      BaseService.bulk_upsert primary_key _save_dataframe normalized_tools
  end.

End Service.
End ToolService.

(* ================================================================== *)
(** ** [BabyPartService] ([backend/services/baby_part_service.py]) *)
(* ================================================================== *)

Module BabyPartService.
Section Service.
Context `{PyRuntime}.

Definition primary_key : string := "baby_parts".
Definition entity_name : string := "baby_part".

Definition _parse_number (value : pyval) : result Z :=
  if match value with PNone => true | _ => false end
     || py_eqb value (PStr "") || pd_isna value
  then Ok 0
  else
    try_except
      (f <~ float_of_str_of value ;; int_of_float f)
      [ValueError; TypeError]
      (fun _ => Ok 0).

Definition _get_original_column_mapping : list (string * string) :=
  [ ("baby_parts", "Baby Parts"); ("qty", "Qty") ].

Definition original_order : list string := [ "Baby Parts"; "Qty" ].

Definition df_to_save (df : DataFrame) : DataFrame :=
  let column_mapping := _get_original_column_mapping in
  let rename_dict :=
    List.filter (fun kv => has_column df kv.1) column_mapping in
  let df_to_save :=
    match rename_dict with
    | [] => df
    | _ =>
        rename (fun c =>
                  match List.find (fun kv => str_eqb kv.1 c) rename_dict with
                  | Some kv => kv.2
                  | None => c
                  end) df
    end in
  let columns_to_include :=
    List.filter (fun col => has_column df_to_save col) original_order in
  let remaining_cols :=
    List.filter (fun col => negb (ToolService.mem col columns_to_include))
      (columns df_to_save) in
  let final_columns := (columns_to_include ++ remaining_cols)%list in
  select_columns final_columns df_to_save.

(** The handlers of the outer [try]; the messages are those of the
    tools service, with this entity's name. *)
Definition save_handlers (path : string) (e : py_exn) : py_exn :=
  if isinstance e [PermissionError] then e
  else if isinstance e [OSError]
  then Exn OSError None (ToolService.msg_cannot_write_ensure path (exn_msg e))
  else
    let error_msg := exn_msg e in
    if contains "Permission denied" error_msg
       || contains "Errno 13" error_msg
       || contains "[Errno 13]" error_msg
    then Exn PermissionError None (ToolService.msg_denied_generic path)
    else Exn OtherException None
           ("Failed to save " +:+ entity_name +:+ " data: " +:+ error_msg).

Definition _save_dataframe (df : DataFrame) : M unit :=
  fun st =>
    match (let df_to_save := df_to_save df in
           _ <- ToolService.check_writable ;;
           ToolService.write_csv df_to_save) st with
    | (Ok u, st') => (Ok u, st')
    | (Raise e, st') => (Raise (save_handlers (file_path st) e), st')
    end.

Definition possible_names (df : DataFrame) : list string :=
  List.filter (fun col => contains "baby" (lower col)
                          && contains "part" (lower col))
    (columns df).

Definition possible_qty_names (df : DataFrame) : list string :=
  List.filter (fun col => contains "qty" (lower col)
                          || contains "quantity" (lower col))
    (columns df).

(** The choice of [qty_col], the same in both readers. *)
Definition find_qty_col (df : DataFrame) : string :=
  if has_column df "qty" then "qty"
  else
    match possible_qty_names df with
    | c :: _ => c
    | [] =>
        match columns df with
        | _ :: c :: _ => c
        | _ => "qty"
        end
    end.

Definition drop_empty_rows (baby_parts_col : string) (df : DataFrame) : DataFrame :=
  let df := select_rows (fun r => notna (cell r baby_parts_col)) df in
  select_rows
    (fun r => negb (str_eqb (strip (str (cell r baby_parts_col))) "")) df.

Definition normalized (part_name : string) (qty : Z) : dict :=
  dict_of
    [ ("id", PStr part_name);
      ("baby_parts", PStr part_name);
      ("qty", PInt qty);
      ("Baby Parts", PStr part_name);
      ("Qty", PInt qty) ].

(** The loop of [get_all] over [df.iterrows()]. *)
Fixpoint normalize_rows (baby_parts_col qty_col : string) (rows : list dict)
    : result (list dict) :=
  match rows with
  | [] => Ok []
  | row :: rest =>
      let baby_part_name :=
        strip (str (dget_or row baby_parts_col (PStr ""))) in
      if negb (truthy (PStr baby_part_name))
      then normalize_rows baby_parts_col qty_col rest
      else
        qty <~ _parse_number (dget_or row qty_col (PInt 0)) ;;
        ns <~ normalize_rows baby_parts_col qty_col rest ;;
        Ok (normalized baby_part_name qty :: ns)
  end.

(** [get_all], on the loaded frame.  Indexing a frame that has no
    column at all by the fallback name raises KeyError. *)
Definition get_all_in (df : DataFrame) : result (list dict) :=
  let baby_parts_col :=
    if has_column df "baby_parts" then "baby_parts"
    else
      match possible_names df with
      | c :: _ => c
      | [] =>
          match columns df with
          | c :: _ => c
          | [] => "baby_parts"
          end
      end in
  let qty_col := find_qty_col df in
  if negb (has_column df baby_parts_col)
  then raise KeyError ("'" +:+ baby_parts_col +:+ "'")
  else
    let df := drop_empty_rows baby_parts_col df in
    normalize_rows baby_parts_col qty_col (to_dict_records df).

Definition get_all : M (list dict) :=
  df <- BaseService._get_dataframe ;;
  lift (get_all_in df).

Definition normalized_col : string := "_normalized_baby_part_name".

Definition msg_not_found (search_name : string) : string :=
  "Baby part with name '" +:+ search_name +:+ "' not found".

Definition msg_no_column (df : DataFrame) : string :=
  "Baby Parts column not found in data. Available columns: "
  +:+ repr_str_list (columns df).

(** [get_by_baby_part_name], on the loaded frame. *)
Definition get_by_baby_part_name_in (df : DataFrame) (baby_part_name : string)
    : result dict :=
  let baby_parts_col :=
    if has_column df "baby_parts" then Some "baby_parts"
    else
      match possible_names df with
      | c :: _ => Some c
      | [] => None
      end in
  match baby_parts_col with
  | None => raise ValueError (msg_no_column df)
  | Some baby_parts_col =>
      let df := drop_empty_rows baby_parts_col df in
      let search_name := strip baby_part_name in
      let search_name_normalized := nfkc search_name in
      let df :=
        assign_column df normalized_col
          (fun r => PStr (nfkc (strip (str (cell r baby_parts_col))))) in
      let matching :=
        select_rows
          (fun r => py_eqb (cell r normalized_col)
                      (PStr search_name_normalized)) df in
      let matching :=
        if empty matching then
          select_rows
            (fun r => str_eqb (lower (str (cell r normalized_col)))
                        (lower search_name_normalized)) df
        else matching in
      match to_dict_records matching with
      | [] => raise ValueError (msg_not_found search_name)
      | baby_part :: _ =>
          let part_name :=
            strip (str (dget_or baby_part baby_parts_col (PStr ""))) in
          let qty_col := find_qty_col df in
          qty <~ _parse_number (dget_or baby_part qty_col (PInt 0)) ;;
          Ok (normalized part_name qty)
      end
  end.

Definition get_by_baby_part_name (baby_part_name : string) : M dict :=
  df <- BaseService._get_dataframe ;;
  lift (get_by_baby_part_name_in df baby_part_name).

Definition exact_name (baby_part : dict) (baby_part_name : string) : pyval :=
  py_or (dget baby_part "Baby Parts")
    (py_or (dget baby_part "baby_parts") (PStr baby_part_name)).

Definition current_data_of (part_name : pyval) (baby_part : dict) : result dict :=
  qty <~ _parse_number
           (py_or (dget baby_part "qty") (py_or (dget baby_part "Qty") (PInt 0))) ;;
  Ok (dict_of [ ("baby_parts", part_name); ("qty", PInt qty) ]).

Definition new_data_of (part_name : pyval) (updated_data : dict) : result dict :=
  let new_part_name :=
    py_or (dget updated_data "baby_parts")
      (dget_or updated_data "Baby Parts" part_name) in
  qty <~ _parse_number
           (py_or (dget updated_data "qty")
              (py_or (dget updated_data "Qty")
                 (py_or (dget updated_data "quantity") (PInt 0)))) ;;
  Ok (dict_of [ ("baby_parts", new_part_name); ("qty", PInt qty) ]).

Definition differs (current_data new_data : dict) (field : string) : bool :=
  py_neqb (ToolService.normalize_value (dget current_data field))
          (ToolService.normalize_value (dget new_data field)).

Definition has_changes (current_data new_data : dict) : bool :=
  if differs current_data new_data "baby_parts" then true
  else if differs current_data new_data "qty" then true
  else false.

Definition update_csv_data (new_data : dict) : dict :=
  dict_of [ ("baby_parts", dget new_data "baby_parts");
            ("qty", dget new_data "qty") ].

Definition update_by_baby_part_name (baby_part_name : string)
    (updated_data : dict) : M dict :=
  found <- mtry (baby_part <- get_by_baby_part_name baby_part_name ;;
                 ret (exact_name baby_part baby_part_name, Some baby_part))
             [ValueError]
             (fun _ => ret (PStr baby_part_name, None)) ;;
  let '(part_name, baby_part) := found in
  current_data <- lift (match baby_part with
                        | Some baby_part => current_data_of part_name baby_part
                        | None => Ok ∅
                        end) ;;
  new_data <- lift (new_data_of part_name updated_data) ;;
  if match baby_part with
     | Some _ => negb (has_changes current_data new_data)
     | None => false
     end
  then ret ToolService.no_changes_response
  else
    BaseService.update primary_key _save_dataframe part_name
      (update_csv_data new_data).

Definition delete_by_baby_part_name (baby_part_name : string) : M dict :=
  part_name <- mtry (baby_part <- get_by_baby_part_name baby_part_name ;;
                     ret (exact_name baby_part baby_part_name))
                 [ValueError]
                 (fun _ => ret (PStr baby_part_name)) ;;
  BaseService.delete primary_key entity_name _save_dataframe part_name.

End Service.
End BabyPartService.

(* ================================================================== *)
(** ** A runtime for ASCII text, and sample data *)
(* ================================================================== *)

(** NFKC leaves ASCII text as it is.  [repr] of a float with an integral
    value below 10^16 is that integer followed by ".0"; the samples use
    no other finite float. *)
Definition repr_integral (neg : bool) (m : N) (e : Z) : string :=
  (if neg then "-" else "") +:+ str_of_Z (Z.shiftl (Z.of_N m) e) +:+ ".0".

Definition ascii_runtime : PyRuntime :=
  {| nfkc := fun s => s; repr_finite := repr_integral |}.

Definition sample_file (table : DataFrame) : FileState :=
  {| file_path := "data/stock_detail.csv";
     file_exists := true;
     file_writable := true;
     open_rw_errno := None;
     to_csv_error := None;
     file_table := table;
     writes := 0 |}.


(* ================================================================== *)
(** ** Vocabulary of the statements, and more sample data *)
(* ================================================================== *)

Definition overflow_exn : py_exn :=
  Exn OverflowError None "cannot convert float infinity to integer".

Definition no_brand_frame : DataFrame :=
  {| columns := ["part_name"; "total"];
     rows := [ dict_of [("part_name", PStr "Widget-A"); ("total", PInt 5)] ] |}.

(** The advice a message gives, read without regard to case. *)
Definition advises (what msg : string) : bool := contains what (lower msg).

Definition full_guidance (msg : string) : Prop :=
  advises "close" msg = true
  /\ advises "read-only" msg = true
  /\ advises "antivirus" msg = true.

(** The file is there and either lacks the write permission or cannot be
    opened for reading and writing. *)
Definition refuses_writers (st : FileState) : Prop :=
  file_exists st = true
  /\ (file_writable st = false \/ open_rw_errno st <> None).

(** The contract of the safe writer as the specification words it. *)
Definition locked_file_contract (save : DataFrame -> M unit) : Prop :=
  forall (st : FileState) (df : DataFrame),
    refuses_writers st ->
    exists e,
      save df st = (Raise e, st)
      /\ exn_class_of e = PermissionError
      /\ full_guidance (exn_msg e).

Definition read_only_file : FileState :=
  {| file_path := "data/stock_detail.csv";
     file_exists := true;
     file_writable := false;
     open_rw_errno := None;
     to_csv_error := None;
     file_table := no_brand_frame;
     writes := 0 |}.

Definition held_file (n : Z) : FileState :=
  {| file_path := "data/stock_detail.csv";
     file_exists := true;
     file_writable := true;
     open_rw_errno := Some n;
     to_csv_error := None;
     file_table := no_brand_frame;
     writes := 0 |}.

(** The Text Matcher as the specification words it: the first entry whose
    key equals the query, else the first whose key equals it ignoring
    case.  Keys and query are already trimmed and normalised. *)
Definition two_pass {A} (key_of : A -> string) (query : string)
    (l : list A) : option A :=
  match List.find (fun r => str_eqb (key_of r) query) l with
  | Some r => Some r
  | None => List.find (fun r => str_eqb (lower (key_of r)) (lower query)) l
  end.

(** The stored key of a row as the matcher reads it. *)
Definition stored_key `{PyRuntime} (col : string) (r : dict) : string :=
  nfkc (strip (str (cell r col))).

(** The column the tools readers take the key from. *)
Definition tool_key_column (df : DataFrame) : option string :=
  if has_column df "part_name" then Some "part_name"
  else head (ToolService.possible_names df).

(** The column [get_by_baby_part_name] takes the key from. *)
Definition baby_key_column (df : DataFrame) : option string :=
  if has_column df "baby_parts" then Some "baby_parts"
  else head (BabyPartService.possible_names df).

(** The frame the matcher works on: blank rows dropped, the normalised
    key added as a column. *)
Definition tool_candidates `{PyRuntime} (col : string) (df : DataFrame) : DataFrame :=
  assign_column (ToolService.drop_empty_rows col df) ToolService.normalized_col
    (fun r => PStr (stored_key col r)).

Definition baby_candidates `{PyRuntime} (col : string) (df : DataFrame) : DataFrame :=
  assign_column (BabyPartService.drop_empty_rows col df)
    BabyPartService.normalized_col
    (fun r => PStr (stored_key col r)).

(** What the readers return for the row [r] of the candidates. *)
Definition tool_of_row `{PyRuntime} (col : string) (cands : DataFrame) (r : dict)
    : result dict :=
  let tool := to_record (columns cands) r in
  ToolService.normalized (strip (str (dget_or tool col (PStr "")))) tool.

Definition baby_part_of_row `{PyRuntime} (col : string) (cands : DataFrame)
    (r : dict) : result dict :=
  let baby_part := to_record (columns cands) r in
  qty <~ BabyPartService._parse_number
           (dget_or baby_part (BabyPartService.find_qty_col cands) (PInt 0)) ;;
  Ok (BabyPartService.normalized
        (strip (str (dget_or baby_part col (PStr "")))) qty).


(** A candidate row: the stored row with its normalised key added. *)
Definition with_key `{PyRuntime} (col ncol : string) (r : dict) : dict :=
  <[ncol := PStr (stored_key col r)]> r.



Definition value_of {A} (dflt : A) (r : result A) : A :=
  match r with Ok a => a | Raise _ => dflt end.

Definition is_ok {A} (r : result A) : bool :=
  match r with Ok _ => true | Raise _ => false end.


Definition tool_compared_fields : list string :=
  [ "part_name"; "detail_specification"; "picture"; "total"; "new"; "old";
    "uom"; "remark" ].

Definition baby_compared_fields : list string := [ "baby_parts"; "qty" ].

(** Two values are equal under the normalisation rule of the update. *)
Definition same_value `{PyRuntime} (a b : pyval) : bool :=
  py_eqb (ToolService.normalize_value a) (ToolService.normalize_value b).

Definition all_same `{PyRuntime} (fields : list string)
    (current_data new_data : dict) : bool :=
  forallb (fun f => same_value (dget current_data f) (dget new_data f)) fields.


Definition tool_file : FileState :=
  sample_file
    {| columns := ["Part Name"; "Total"];
       rows := [ dict_of [("Part Name", PStr "Widget-A"); ("Total", PInt 5)];
                 dict_of [("Part Name", PStr "Bolt"); ("Total", PInt 9)] ] |}.

Definition baby_file : FileState :=
  sample_file
    {| columns := ["Baby Parts"; "Qty"];
       rows := [ dict_of [("Baby Parts", PStr "Gear-1"); ("Qty", PInt 3)] ] |}.

Definition same_tool_payload : dict :=
  dict_of [ ("tools_name", PStr " Widget-A "); ("Total", PStr "5.0") ].


Definition changed_tool_payload : dict :=
  dict_of [ ("tools_name", PStr "Widget-A"); ("Total", PStr "6") ].

(** The query resolves to no stored row of the tools file. *)
Definition tool_unresolved `{PyRuntime} (df : DataFrame) (q : string) : Prop :=
  match tool_key_column df with
  | Some col =>
      two_pass (stored_key col) (nfkc (strip q))
        (rows (ToolService.drop_empty_rows col df)) = None
  | None => True
  end.

(** The query resolves to no stored row of the baby parts file. *)
Definition baby_unresolved `{PyRuntime} (df : DataFrame) (q : string) : Prop :=
  match baby_key_column df with
  | Some col =>
      two_pass (stored_key col) (nfkc (strip q))
        (rows (BabyPartService.drop_empty_rows col df)) = None
  | None => True
  end.




(** The record of a batch carries a key: one of the three name fields
    holds a truthy value. *)
Definition tool_has_key (tool_data : dict) : bool :=
  truthy (py_or (dget tool_data "tools_name")
            (py_or (dget tool_data "Part Name")
               (dget_or tool_data "TOOLS NAME" (PStr "")))).


Definition unkeyed_frame : DataFrame :=
  {| columns := ["name"; "qty"];
     rows := [ dict_of [("name", PStr "Widget-A"); ("qty", PInt 5)] ] |}.

(** The label a column is written under, given the mapping from internal
    names to file headers: the mapped header, or the label itself. *)
Definition header_under (mapping : list (string * string)) (c : string) : string :=
  match List.find (fun kv : string * string => str_eqb kv.1 c) mapping with
  | Some kv => kv.2
  | None => c
  end.

Definition tool_header : string -> string :=
  header_under ToolService._get_original_column_mapping.

Definition baby_header : string -> string :=
  header_under BabyPartService._get_original_column_mapping.

(** The fixed headers that occur among [labels], in their fixed order. *)
Definition fixed_part (order labels : list string) : list string :=
  List.filter (fun c => ToolService.mem c labels) order.

(** A frame with one column outside the fixed headers. *)
Definition shelf_frame : DataFrame :=
  {| columns := ["shelf"; "total"; "part_name"];
     rows := [ dict_of [("shelf", PStr "B2"); ("total", PInt 5);
                        ("part_name", PStr "Widget-A")] ] |}.

(** The checks before the write let the save through: there is no file
    yet, or the file has the write permission and opens for reading and
    writing. *)
Definition checks_pass (st : FileState) : Prop :=
  file_exists st = false
  \/ (file_writable st = true /\ open_rw_errno st = None).


(** A file that passes the checks and whose write fails with [e]. *)
Definition failing_file (e : py_exn) : FileState :=
  {| file_path := "data/stock_detail.csv";
     file_exists := true;
     file_writable := true;
     open_rw_errno := None;
     to_csv_error := Some e;
     file_table := no_brand_frame;
     writes := 0 |}.

(** What the caller of a save sees when the write itself fails with [e]:
    the message for an entity named [entity] and a file at [path]. *)
Definition write_failure (entity path : string) (e : py_exn) : py_exn :=
  match exn_class_of e with
  | PermissionError =>
      Exn PermissionError None (ToolService.msg_save_denied path (exn_msg e))
  | OSError | FileNotFoundError =>
      Exn OSError None
        (ToolService.msg_cannot_write_ensure path
           (ToolService.msg_cannot_write_close path (exn_msg e)))
  | _ =>
      if contains "Permission denied" (exn_msg e)
         || contains "Errno 13" (exn_msg e)
      then Exn PermissionError None (ToolService.msg_denied_generic path)
      else Exn OtherException None
             ("Failed to save " +:+ entity +:+ " data: " +:+ exn_msg e)
  end.

(* ================================================================== *)
(** ** Validation and creation *)
(* ================================================================== *)

(** [s.replace(c, '', 1)] for one character [c]: its first occurrence
    is taken out. *)
Fixpoint remove_first (c : ascii) (s : string) : string :=
  match s with
  | EmptyString => EmptyString
  | String a s' => if Ascii.eqb a c then s' else String a (remove_first c s')
  end.

(** [str.isdigit] on ASCII text. *)
Definition ascii_isdigit (s : string) : bool :=
  negb (str_eqb s "") && forallb is_digit (list_ascii_of_string s).

(** [ToolService._validate] and [ToolService.create]
    ([backend/services/tool_service.py]).  [str.isdigit] is taken from
    the runtime; [base_create] is [super().create], whose module is not
    among the sources.  AttributeError, which the exception classes here
    do not have and nothing in the guarded body raises, is left out of
    the handler's classes. *)
Module ToolServiceCreate.
Section Service.
Context `{PyRuntime}.
Variable isdigit : string -> bool.
Variable base_create : dict -> M dict.

Definition _validate (data : dict) : result unit :=
  let part_name :=
    py_or (dget data "Part Name")
      (py_or (dget data "tools_name")
         (py_or (dget data "TOOLS NAME") (PStr ""))) in
  if str_eqb (strip (str part_name)) ""
  then raise ValueError "Part Name is required"
  else
    let total_stock :=
      py_or (dget data "Total")
        (py_or (dget data "current_stock") (dget data "CURRENT STOCK")) in
    match total_stock with
    | PNone => Ok tt
    | _ =>
        try_except
          (let stock_value := strip (str total_stock) in
           if negb (str_eqb stock_value "")
           then
             if negb (isdigit (remove_first "." (remove_first "-" stock_value)))
             then raise ValueError "Total stock must be a number"
             else Ok tt
           else Ok tt)
          [ValueError; TypeError]
          (fun _ => raise ValueError "Total stock must be a valid number")
    end.

Definition create (tool_data : dict) : M dict :=
  let part_name :=
    py_or (dget tool_data "tools_name")
      (py_or (dget tool_data "Part Name")
         (dget_or tool_data "TOOLS NAME" (PStr ""))) in
  if negb (truthy part_name)
  then throw (Exn ValueError None "Part Name is required")
  else
    csv_data <- lift (
      let detail_specification :=
        py_or (dget tool_data "stock_detail")
          (py_or (dget tool_data "Detail Specification")
             (dget_or tool_data "description" (PStr ""))) in
      let picture :=
        py_or (dget tool_data "photo") (dget_or tool_data "Picture" (PStr "")) in
      total <~ ToolService._parse_number
                 (py_or (dget tool_data "current_stock")
                    (dget_or tool_data "Total" (PInt 0))) ;;
      new <~ ToolService._parse_number
               (py_or (dget tool_data "stock_new")
                  (dget_or tool_data "NEW" (PInt 0))) ;;
      old <~ ToolService._parse_number
               (py_or (dget tool_data "stock_old")
                  (dget_or tool_data "OLD" (PInt 0))) ;;
      Ok (dict_of
        [ ("part_name", part_name);
          ("brand", PStr "");
          ("detail_specification", detail_specification);
          ("picture", picture);
          ("total", PInt total);
          ("new", PInt new);
          ("old", PInt old);
          ("uom", py_or (dget tool_data "uom") (dget_or tool_data "UOM" (PStr "Pcs")));
          ("remark",
            py_or (dget tool_data "remark")
              (dget_or tool_data "Remark" (PStr ""))) ])) ;;
    base_create csv_data.

End Service.
End ToolServiceCreate.

(** [BabyPartService._validate] and [BabyPartService.create]
    ([backend/services/baby_part_service.py]), with the same two
    parameters. *)
Module BabyPartServiceCreate.
Section Service.
Context `{PyRuntime}.
Variable isdigit : string -> bool.
Variable base_create : dict -> M dict.

Definition _validate (data : dict) : result unit :=
  let baby_part_name :=
    py_or (dget data "Baby Parts")
      (py_or (dget data "baby_parts")
         (py_or (dget data "BABY PARTS") (PStr ""))) in
  if str_eqb (strip (str baby_part_name)) ""
  then raise ValueError "Baby Parts name is required"
  else
    let qty :=
      py_or (dget data "Qty") (py_or (dget data "qty") (dget data "quantity")) in
    match qty with
    | PNone => Ok tt
    | _ =>
        try_except
          (let qty_value := strip (str qty) in
           if negb (str_eqb qty_value "")
           then
             if negb (isdigit (remove_first "." (remove_first "-" qty_value)))
             then raise ValueError "Quantity must be a number"
             else Ok tt
           else Ok tt)
          [ValueError; TypeError]
          (fun _ => raise ValueError "Quantity must be a valid number")
    end.

Definition create (baby_part_data : dict) : M dict :=
  _ <- lift (_validate baby_part_data) ;;
  let baby_part_name :=
    py_or (dget baby_part_data "Baby Parts")
      (py_or (dget baby_part_data "baby_parts")
         (dget_or baby_part_data "BABY PARTS" (PStr ""))) in
  csv_data <- lift (
    qty <~ BabyPartService._parse_number
             (py_or (dget baby_part_data "Qty")
                (py_or (dget baby_part_data "qty")
                   (dget_or baby_part_data "quantity" (PInt 0)))) ;;
    Ok (dict_of [ ("baby_parts", baby_part_name); ("qty", PInt qty) ])) ;;
  base_create csv_data.

End Service.
End BabyPartServiceCreate.

(** The names of the exceptions a validation can end with. *)
Definition validation_messages : list string :=
  [ "Part Name is required"; "Total stock must be a valid number";
    "Baby Parts name is required"; "Quantity must be a valid number" ].

(** A base creation that stores nothing and answers. *)
Definition accepting_create (record : dict) : M dict := ret record.

Definition spaced_tool : dict :=
  dict_of [ ("tools_name", PStr "Drill"); ("Total", PStr "1e3") ].

Definition new_gear : dict :=
  dict_of [ ("Baby Parts", PStr " Gear-2 "); ("Qty", PStr "12") ].


(** One of the count [fields] is a column and holds, in the row [r], a
    value on which the number parser raises. *)
Definition count_overflows (parse : pyval -> result Z)
    (cols fields : list string) (r : dict) : bool :=
  existsb (fun k => ToolService.mem k cols && negb (is_ok (parse (cell r k))))
    fields.

Definition tool_count_fields : list string := ["total"; "new"; "old"].


(** The record the tools readers answer with. *)
Definition tool_record (s : string) (total new old : Z)
    (detail picture uom remark : string) : dict :=
  dict_of
    [ ("id", PStr s);
      ("tools_name", PStr s);
      ("current_stock", PInt total);
      ("stock_new", PInt new);
      ("stock_old", PInt old);
      ("stock_detail", PStr detail);
      ("photo", PStr picture);
      ("uom", PStr uom);
      ("remark", PStr remark);
      ("description", PStr detail);
      ("Part Name", PStr s);
      ("Detail Specification", PStr detail);
      ("Picture", PStr picture);
      ("Total", PInt total);
      ("NEW", PInt new);
      ("OLD", PInt old);
      ("UOM", PStr uom);
      ("Remark", PStr remark) ].

(** A payload whose two name fields disagree: the one [create] reads
    first is blank. *)
Definition two_named_tool : dict :=
  dict_of [ ("tools_name", PStr "  "); ("Part Name", PStr "Drill");
            ("Total", PStr "3") ].

(** A stock file in which the row of Bolt holds an infinite count. *)
Definition poisoned_file : FileState :=
  sample_file
    {| columns := ["Part Name"; "Total"];
       rows := [ dict_of [("Part Name", PStr "Widget-A"); ("Total", PInt 5)];
                 dict_of [("Part Name", PStr "Bolt"); ("Total", PStr "inf")] ] |}.

(* ================================================================== *)
(** ** Text lemmas *)
(* ================================================================== *)

Lemma lstrip_idem s : lstrip (lstrip s) = lstrip s.
Proof.
  induction s as [|c s IH]; simpl; [reflexivity|].
  destruct (is_space c) eqn:E; [exact IH|]. simpl. now rewrite E.
Qed.

Lemma rstrip_idem s : rstrip (rstrip s) = rstrip s.
Proof.
  induction s as [|c s IH]; simpl; [reflexivity|].
  destruct (rstrip s) as [|d r] eqn:E.
  - destruct (is_space c) eqn:Ec; simpl; [reflexivity|]. now rewrite Ec.
  - simpl in *. now rewrite IH.
Qed.

(** A text that does not start with a blank keeps its head under
    [rstrip], so [lstrip] has nothing left to remove. *)
Lemma lstrip_rstrip_fixed s : lstrip s = s -> lstrip (rstrip s) = rstrip s.
Proof.
  destruct s as [|c s]; simpl; [reflexivity|].
  destruct (is_space c) eqn:E.
  - intros Hs. exfalso.
    assert (Hlen : (String.length (lstrip s) <= String.length s)%nat).
    { clear. induction s as [|d s IH]; simpl; [lia|].
      destruct (is_space d); simpl; lia. }
    rewrite Hs in Hlen. simpl in Hlen. lia.
  - intros _. destruct (rstrip s); simpl; now rewrite E.
Qed.

Lemma strip_idem s : strip (strip s) = strip s.
Proof.
  unfold strip.
  rewrite (lstrip_rstrip_fixed (lstrip s)) by apply lstrip_idem.
  apply rstrip_idem.
Qed.

Lemma str_eqb_eq a b : str_eqb a b = true <-> a = b.
Proof. apply String.eqb_eq. Qed.

Lemma str_eqb_refl a : str_eqb a a = true.
Proof. apply String.eqb_refl. Qed.

Lemma contains_app_r needle a b :
  contains needle b = true -> contains needle (a +:+ b) = true.
Proof.
  intros Hb. induction a as [|c a IH]; simpl; [exact Hb|].
  rewrite IH. apply orb_true_r.
Qed.

(* ================================================================== *)
(** ** Numeric parsing *)
(* ================================================================== *)

Lemma int_of_float_cases f :
  (exists z, int_of_float f = Ok z)
  \/ (f = FNaN /\ exists e, int_of_float f = Raise e /\ exn_class_of e = ValueError)
  \/ ((exists neg, f = FInf neg) /\ int_of_float f = Raise overflow_exn).
Proof.
  destruct f as [|neg|neg m e]; simpl.
  - right; left. split; [reflexivity|]. eexists. split; reflexivity.
  - right; right. split; [now exists neg|reflexivity].
  - left. eexists. reflexivity.
Qed.

Lemma float_of_str_cases s :
  (exists f, float_of_str s = Ok f)
  \/ (exists e, float_of_str s = Raise e /\ exn_class_of e = ValueError).
Proof.
  unfold float_of_str. destruct (parse_float s).
  - left. eexists. reflexivity.
  - right. eexists. split; reflexivity.
Qed.

Lemma float_of_str_of_cases `{PyRuntime} v :
  (exists f, float_of_str_of v = Ok f)
  \/ (exists e, float_of_str_of v = Raise e /\ exn_class_of e = ValueError).
Proof.
  destruct v; simpl; try apply float_of_str_cases.
  left. eexists. reflexivity.
Qed.

(** The conversion [int(float(str(v).strip()))] under the handler for
    ValueError and TypeError: a number, or the overflow of an infinity. *)
Lemma guarded_conversion_cases `{PyRuntime} v :
  let r := try_except (f <~ float_of_str_of v ;; int_of_float f)
             [ValueError; TypeError] (fun _ => Ok 0) in
  (exists z, r = Ok z) \/ r = Raise overflow_exn.
Proof.
  intros r. subst r.
  destruct (float_of_str_of_cases v) as [[f ->]|[e [-> He]]]; simpl.
  - destruct (int_of_float_cases f) as [[z ->]|[[-> [e [-> He]]]|[_ ->]]]; simpl.
    + left. eexists. reflexivity.
    + unfold isinstance. simpl. rewrite He. simpl. left. eexists. reflexivity.
    + right. reflexivity.
  - unfold isinstance. simpl. rewrite He. simpl. left. eexists. reflexivity.
Qed.

Lemma tool_parse_number_cases `{PyRuntime} v :
  (exists z, ToolService._parse_number v = Ok z)
  \/ ToolService._parse_number v = Raise overflow_exn.
Proof.
  unfold ToolService._parse_number.
  destruct (pd_isna v || py_eqb v (PStr "")).
  - left. exists 0. reflexivity.
  - apply guarded_conversion_cases.
Qed.

Lemma baby_parse_number_cases `{PyRuntime} v :
  (exists z, BabyPartService._parse_number v = Ok z)
  \/ BabyPartService._parse_number v = Raise overflow_exn.
Proof.
  unfold BabyPartService._parse_number.
  destruct (_ || _).
  - left. exists 0. reflexivity.
  - apply guarded_conversion_cases.
Qed.

(** C7.  [_parse_number] gives 5, 5, 0, 0, 0 on "5", "5.0", "", "abc" and
    None and 0 on NaN, but it is not total: on the text "inf" the float
    conversion succeeds and the truncation raises OverflowError, which the
    handler for ValueError and TypeError lets through.  Both services. *)
Theorem parse_number_raises_on_infinity `{PyRuntime} :
  map ToolService._parse_number
      [PStr "5"; PStr "5.0"; PStr ""; PStr "abc"; PNone; NaN]
    = [Ok 5; Ok 5; Ok 0; Ok 0; Ok 0; Ok 0]
  /\ map BabyPartService._parse_number
       [PStr "5"; PStr "5.0"; PStr ""; PStr "abc"; PNone; NaN]
     = [Ok 5; Ok 5; Ok 0; Ok 0; Ok 0; Ok 0]
  /\ ToolService._parse_number (PStr "inf") = Raise overflow_exn
  /\ BabyPartService._parse_number (PStr "inf") = Raise overflow_exn.
Proof. repeat split; vm_compute; reflexivity. Qed.

(* ================================================================== *)
(** ** Batches *)
(* ================================================================== *)

(** C10.  [bulk_upsert] on an empty list raises ValueError "No data
    provided" and leaves the file as it is. *)
Theorem bulk_upsert_empty_rejected `{PyRuntime} (st : FileState) :
  ToolService.bulk_upsert [] st
  = (Raise (Exn ValueError None "No data provided"), st).
Proof. reflexivity. Qed.

(* ================================================================== *)
(** ** The columns written by the tools service *)
(* ================================================================== *)

Lemma existsb_str_eqb_In c l : existsb (str_eqb c) l = true <-> In c l.
Proof.
  rewrite existsb_exists. split.
  - intros [x [Hx ->%str_eqb_eq]]. exact Hx.
  - intros Hc. exists c. split; [exact Hc|apply str_eqb_refl].
Qed.

Lemma has_column_In df c : has_column df c = true <-> In c (columns df).
Proof. apply existsb_str_eqb_In. Qed.

Lemma find_filter_implied {A} (q p : A -> bool) (l : list A) :
  (forall x, q x = true -> p x = true) ->
  List.find q (List.filter p l) = List.find q l.
Proof.
  intros Hqp. induction l as [|x l IH]; simpl; [reflexivity|].
  destruct (p x) eqn:Ep; simpl.
  - now rewrite IH.
  - destruct (q x) eqn:Eq; [|exact IH].
    rewrite (Hqp x Eq) in Ep. discriminate.
Qed.

(** The renaming applied to a label of the frame: the mapping entry if
    there is one. *)
Lemma renamed_label df c :
  In c (columns df) ->
  match List.find (fun kv : string * string => str_eqb kv.1 c)
          (List.filter (fun kv : string * string => has_column df kv.1)
             ToolService._get_original_column_mapping) with
  | Some kv => kv.2
  | None => c
  end
  = match List.find (fun kv : string * string => str_eqb kv.1 c)
            ToolService._get_original_column_mapping with
    | Some kv => kv.2
    | None => c
    end.
Proof.
  intros Hc. rewrite find_filter_implied; [reflexivity|].
  intros [k v] Hk%str_eqb_eq. simpl in *. subst k.
  now apply has_column_In.
Qed.

Lemma mapped_to_brand c :
  match List.find (fun kv : string * string => str_eqb kv.1 c)
          ToolService._get_original_column_mapping with
  | Some kv => kv.2
  | None => c
  end = "Brand"
  <-> c = "brand" \/ c = "Brand".
Proof.
  unfold ToolService._get_original_column_mapping.
  cbn [List.find fst snd].
  repeat match goal with
  | |- context [str_eqb ?k c] =>
      let E := fresh "E" in
      destruct (str_eqb k c) eqn:E;
      [apply str_eqb_eq in E; subst c; cbn [snd];
       split; [intros X; try discriminate X; auto
              |intros [X|X]; try discriminate X; auto]
      |]
  end.
  split; [auto|].
  intros [->| ->]; [|reflexivity].
  vm_compute in E0. discriminate.
Qed.

Lemma brand_survives_only_if_present (df : DataFrame) :
  has_column (ToolService.df_to_save df) "Brand"
  = has_column df "brand" || has_column df "Brand".
Proof.
  apply eq_true_iff_eq.
  rewrite orb_true_iff, !has_column_In.
  unfold ToolService.df_to_save. cbn [columns select_columns].
  set (rd := List.filter (fun kv : string * string => has_column df kv.1)
               ToolService._get_original_column_mapping).
  set (f := fun c : string =>
              match List.find (fun kv : string * string => str_eqb kv.1 c) rd with
              | Some kv => kv.2
              | None => c
              end).
  set (df1 := match rd with [] => df | _ => rename f df end).
  assert (Hcols : In "Brand" (columns df1)
                  <-> In "brand" (columns df) \/ In "Brand" (columns df)).
  { assert (Hmap : In "Brand" (map f (columns df))
                   <-> In "brand" (columns df) \/ In "Brand" (columns df)).
    { rewrite in_map_iff. split.
      - intros [c [Hfc Hc]]. unfold f, rd in Hfc.
        rewrite (renamed_label df c Hc) in Hfc.
        apply mapped_to_brand in Hfc as [->| ->]; auto.
      - intros [Hc|Hc]; [exists "brand"|exists "Brand"]; (split; [|exact Hc]);
          unfold f, rd; rewrite (renamed_label df _ Hc); reflexivity. }
    subst df1. destruct rd as [|kv rd'] eqn:Erd; [|exact Hmap].
    split; [auto|]. intros [Hc|Hc]; [|exact Hc]. exfalso.
    assert (Hin : In ("brand", "Brand") rd).
    { subst rd. apply filter_In. split.
      - unfold ToolService._get_original_column_mapping. simpl. auto.
      - simpl. now apply has_column_In. }
    rewrite Erd in Hin. destruct Hin. }
  rewrite in_app_iff, !filter_In, <- Hcols.
  split.
  - intros [[_ Hb]|[Hb _]]; [now apply has_column_In|exact Hb].
  - intros Hb. left. split.
    + unfold ToolService.original_order. simpl. auto.
    + now apply has_column_In.
Qed.

(** C6.  The frame written by the tools service has the Brand column
    exactly when the incoming frame has a "brand" or "Brand" column: the
    list of columns to write is fixed before the empty Brand column is
    added, so the added column is dropped again by the final selection.
    A frame with the columns part_name and total is written with the
    columns Part Name and Total only. *)
Theorem save_drops_added_brand :
  (forall df : DataFrame,
     has_column (ToolService.df_to_save df) "Brand"
     = has_column df "brand" || has_column df "Brand")
  /\ columns (file_table
                (ToolService._save_dataframe no_brand_frame
                   (sample_file no_brand_frame)).2)
     = ["Part Name"; "Total"].
Proof.
  split; [exact brand_survives_only_if_present|].
  vm_compute. reflexivity.
Qed.

(* ================================================================== *)
(** ** The checks before a write *)
(* ================================================================== *)

Lemma lower_app a b : lower (a +:+ b) = lower a +:+ lower b.
Proof. induction a as [|c a IH]; simpl; [reflexivity|]. now rewrite IH. Qed.

Lemma advises_after what a b :
  advises what b = true -> advises what (a +:+ b) = true.
Proof. unfold advises. rewrite lower_app. apply contains_app_r. Qed.

Lemma read_only_message_advice path :
  advises "close" (ToolService.msg_read_only path) = true
  /\ advises "write permissions" (ToolService.msg_read_only path) = true
  /\ advises "read-only" (ToolService.msg_read_only path) = true.
Proof.
  unfold ToolService.msg_read_only.
  split; [|split]; do 2 apply advises_after; vm_compute; reflexivity.
Qed.

Lemma locked_message_guidance path :
  full_guidance (ToolService.msg_locked path).
Proof.
  unfold ToolService.msg_locked, full_guidance.
  split; [|split]; do 2 apply advises_after; vm_compute; reflexivity.
Qed.

Lemma os_error_errno n path : exn_errno (os_error n path) = Some n.
Proof. reflexivity. Qed.

(** C3, as stated, fails.  For a read-only file the save is refused with
    PermissionError, but the message does not mention antivirus; and a
    file whose trial open is refused with errno 16 is reported with
    OSError, not PermissionError. *)
Lemma locked_file_contract_fails :
  ~ locked_file_contract ToolService._save_dataframe
  /\ (exists e,
        ToolService._save_dataframe no_brand_frame read_only_file
        = (Raise e, read_only_file)
        /\ exn_class_of e = PermissionError
        /\ advises "antivirus" (exn_msg e) = false)
  /\ (exists e,
        ToolService._save_dataframe no_brand_frame (held_file 16)
        = (Raise e, held_file 16)
        /\ exn_class_of e = OSError).
Proof.
  split; [|split].
  - intros Hc.
    destruct (Hc read_only_file no_brand_frame) as [e [He [_ [_ [_ Ha]]]]].
    + split; [reflexivity|]. left. reflexivity.
    + vm_compute in He. injection He as <-. vm_compute in Ha. discriminate.
  - eexists. split; [vm_compute; reflexivity|]. split; vm_compute; reflexivity.
  - eexists. split; [vm_compute; reflexivity|]. vm_compute; reflexivity.
Qed.

(** C3, amended.  When the file exists, both services refuse the save
    before any write, leaving the file state as it was:
    - without the write permission, with PermissionError and a message
      that says to close the file and to ensure write permissions;
    - with the permission but a trial open refused with errno 13, with
      PermissionError and the message that names closing the file, the
      read-only attribute and antivirus;
    - with a trial open refused with another errno, with OSError. *)
Theorem save_refused_before_write (st : FileState) (df : DataFrame) :
  file_exists st = true ->
  let path := file_path st in
  (file_writable st = false ->
     ToolService._save_dataframe df st
       = (Raise (Exn PermissionError None (ToolService.msg_read_only path)), st)
     /\ BabyPartService._save_dataframe df st
       = (Raise (Exn PermissionError None (ToolService.msg_read_only path)), st)
     /\ advises "close" (ToolService.msg_read_only path) = true
     /\ advises "write permissions" (ToolService.msg_read_only path) = true)
  /\ (file_writable st = true -> open_rw_errno st = Some 13 ->
        ToolService._save_dataframe df st
          = (Raise (Exn PermissionError None (ToolService.msg_locked path)), st)
        /\ BabyPartService._save_dataframe df st
          = (Raise (Exn PermissionError None (ToolService.msg_locked path)), st)
        /\ full_guidance (ToolService.msg_locked path))
  /\ (forall n, file_writable st = true -> open_rw_errno st = Some n ->
        n <> 13 ->
        let e := Exn OSError None
                   (ToolService.msg_cannot_write_ensure path
                      (ToolService.msg_cannot_access path
                         (exn_msg (os_error n path)))) in
        ToolService._save_dataframe df st = (Raise e, st)
        /\ BabyPartService._save_dataframe df st = (Raise e, st)).
Proof.
  intros Hex path.
  assert (Hro : file_writable st = false ->
                ToolService.check_writable st
                = (Raise (Exn PermissionError None (ToolService.msg_read_only path)), st)).
  { intros Hw. unfold ToolService.check_writable. rewrite Hex, Hw. reflexivity. }
  assert (Hlk : file_writable st = true -> open_rw_errno st = Some 13 ->
                ToolService.check_writable st
                = (Raise (Exn PermissionError None (ToolService.msg_locked path)), st)).
  { intros Hw Ho. unfold ToolService.check_writable. rewrite Hex, Hw, Ho.
    cbn [negb]. rewrite os_error_errno.
    rewrite bool_decide_eq_true_2 by reflexivity. reflexivity. }
  assert (Hbusy : forall n, file_writable st = true -> open_rw_errno st = Some n ->
                  n <> 13 ->
                  ToolService.check_writable st
                  = (Raise (Exn OSError None
                              (ToolService.msg_cannot_access path
                                 (exn_msg (os_error n path)))), st)).
  { intros n Hw Ho Hn. unfold ToolService.check_writable. rewrite Hex, Hw, Ho.
    cbn [negb]. rewrite os_error_errno.
    rewrite bool_decide_eq_false_2 by congruence. reflexivity. }
  split; [|split].
  - intros Hw. specialize (Hro Hw).
    split; [|split; [|split]].
    + unfold ToolService._save_dataframe, mbind. rewrite Hro. reflexivity.
    + unfold BabyPartService._save_dataframe, mbind. rewrite Hro. reflexivity.
    + exact (proj1 (read_only_message_advice path)).
    + exact (proj1 (proj2 (read_only_message_advice path))).
  - intros Hw Ho. specialize (Hlk Hw Ho).
    split; [|split].
    + unfold ToolService._save_dataframe, mbind. rewrite Hlk. reflexivity.
    + unfold BabyPartService._save_dataframe, mbind. rewrite Hlk. reflexivity.
    + exact (locked_message_guidance path).
  - intros n Hw Ho Hn e. specialize (Hbusy n Hw Ho Hn).
    split.
    + unfold ToolService._save_dataframe, mbind. rewrite Hbusy. reflexivity.
    + unfold BabyPartService._save_dataframe, mbind. rewrite Hbusy. reflexivity.
Qed.

Lemma save_refused_before_write_witness :
  ToolService._save_dataframe no_brand_frame read_only_file
    = (Raise (Exn PermissionError None
                (ToolService.msg_read_only (file_path read_only_file))),
       read_only_file)
  /\ ToolService._save_dataframe no_brand_frame (held_file 13)
    = (Raise (Exn PermissionError None
                (ToolService.msg_locked (file_path (held_file 13)))),
       held_file 13)
  /\ exn_class_of
       (match (BabyPartService._save_dataframe no_brand_frame (held_file 16)).1 with
        | Raise e => e
        | Ok _ => Exn OtherException None ""
        end) = OSError.
Proof.
  destruct (save_refused_before_write read_only_file no_brand_frame eq_refl)
    as [Hro _].
  destruct (save_refused_before_write (held_file 13) no_brand_frame eq_refl)
    as [_ [Hlk _]].
  destruct (save_refused_before_write (held_file 16) no_brand_frame eq_refl)
    as [_ [_ Hbusy]].
  split; [apply Hro; reflexivity|].
  split; [apply Hlk; reflexivity|].
  destruct (Hbusy 16 eq_refl eq_refl ltac:(lia)) as [_ ->]. reflexivity.
Defined.

(* ================================================================== *)
(** ** Key resolution *)
(* ================================================================== *)

Lemma find_head_filter {A} (p : A -> bool) (l : list A) :
  List.find p l = head (List.filter p l).
Proof.
  induction l as [|x l IH]; simpl; [reflexivity|].
  destruct (p x); simpl; [reflexivity|exact IH].
Qed.

Lemma cell_insert_eq (r : dict) k v : cell (<[k := v]> r) k = v.
Proof. unfold cell. now rewrite lookup_insert_eq. Qed.

Lemma first_of_two_selections {C} (df : DataFrame) (p1 p2 : dict -> bool)
    (none : C) (some : dict -> C) :
  match to_dict_records
          (if empty (select_rows p1 df) then select_rows p2 df
           else select_rows p1 df) with
  | [] => none
  | t :: _ => some t
  end
  = match
      match List.find p1 (rows df) with
      | Some r => Some r
      | None => List.find p2 (rows df)
      end
    with
    | Some r => some (to_record (columns df) r)
    | None => none
    end.
Proof.
  unfold to_dict_records, empty, select_rows. cbn [rows columns].
  rewrite !find_head_filter.
  destruct (List.filter p1 (rows df)) as [|x xs]; cbn [rows columns head map];
    [|reflexivity].
  destruct (List.filter p2 (rows df)); reflexivity.
Qed.

Lemma find_map {A B} (g : A -> B) (p : B -> bool) (l : list A) :
  List.find p (map g l) = g <$> List.find (fun x => p (g x)) l.
Proof.
  induction l as [|x l IH]; simpl; [reflexivity|].
  destruct (p (g x)); [reflexivity|exact IH].
Qed.

Lemma find_ext_eq {A} (p q : A -> bool) (l : list A) :
  (forall x, p x = q x) -> List.find p l = List.find q l.
Proof.
  intros E. induction l as [|x l IH]; simpl; [reflexivity|].
  rewrite E, IH. reflexivity.
Qed.

Lemma key_column_choice (df : DataFrame) (name : string) (names : list string) :
  (if has_column df name then Some name
   else match names with [] => None | c :: _ => Some c end)
  = (if has_column df name then Some name else head names).
Proof. destruct (has_column df name); [reflexivity|]. now destruct names. Qed.

(** [get_by_tools_name] is the two-pass search over the stored rows. *)
Lemma tool_resolution `{PyRuntime} (df : DataFrame) (q : string) :
  ToolService.get_by_tools_name_in df q
  = match tool_key_column df with
    | None => raise ValueError (ToolService.msg_no_column df)
    | Some col =>
        match two_pass (stored_key col) (nfkc (strip q))
                (rows (ToolService.drop_empty_rows col df)) with
        | Some r =>
            tool_of_row col (tool_candidates col df)
              (with_key col ToolService.normalized_col r)
        | None => raise ValueError (ToolService.msg_not_found (strip q))
        end
    end.
Proof.
  unfold ToolService.get_by_tools_name_in, tool_key_column.
  rewrite key_column_choice.
  destruct (if has_column df "part_name" then _ else _) as [col|]; [|reflexivity].
  cbv zeta.
  change (assign_column _ _ _) with (tool_candidates col df).
  rewrite (first_of_two_selections (tool_candidates col df)).
  unfold two_pass, tool_of_row.
  unfold tool_candidates at 1 2. unfold assign_column at 1 2. cbn [rows].
  rewrite !find_map.
  rewrite (find_ext_eq _ (fun r => str_eqb (stored_key col r) (nfkc (strip q)))).
  2:{ intros r. rewrite cell_insert_eq. reflexivity. }
  rewrite (find_ext_eq
             (fun r => str_eqb (lower (str (cell (<[_ := _]> r) _))) _)
             (fun r => str_eqb (lower (stored_key col r)) (lower (nfkc (strip q))))).
  2:{ intros r. rewrite cell_insert_eq. reflexivity. }
  destruct (List.find _ _) as [r|]; [reflexivity|].
  destruct (List.find _ _) as [r|]; reflexivity.
Qed.

(** [get_by_baby_part_name] is the two-pass search over the stored rows. *)
Lemma baby_resolution `{PyRuntime} (df : DataFrame) (q : string) :
  BabyPartService.get_by_baby_part_name_in df q
  = match baby_key_column df with
    | None => raise ValueError (BabyPartService.msg_no_column df)
    | Some col =>
        match two_pass (stored_key col) (nfkc (strip q))
                (rows (BabyPartService.drop_empty_rows col df)) with
        | Some r =>
            baby_part_of_row col (baby_candidates col df)
              (with_key col BabyPartService.normalized_col r)
        | None => raise ValueError (BabyPartService.msg_not_found (strip q))
        end
    end.
Proof.
  unfold BabyPartService.get_by_baby_part_name_in, baby_key_column.
  rewrite key_column_choice.
  destruct (if has_column df "baby_parts" then _ else _) as [col|]; [|reflexivity].
  cbv zeta.
  change (assign_column _ _ _) with (baby_candidates col df).
  rewrite (first_of_two_selections (baby_candidates col df)).
  unfold two_pass, baby_part_of_row.
  unfold baby_candidates at 1 2. unfold assign_column at 1 2. cbn [rows].
  rewrite !find_map.
  rewrite (find_ext_eq _ (fun r => str_eqb (stored_key col r) (nfkc (strip q)))).
  2:{ intros r. rewrite cell_insert_eq. reflexivity. }
  rewrite (find_ext_eq
             (fun r => str_eqb (lower (str (cell (<[_ := _]> r) _))) _)
             (fun r => str_eqb (lower (stored_key col r)) (lower (nfkc (strip q))))).
  2:{ intros r. rewrite cell_insert_eq. reflexivity. }
  destruct (List.find _ _) as [r|]; [reflexivity|].
  destruct (List.find _ _) as [r|]; reflexivity.
Qed.






(* ================================================================== *)
(** ** Listing *)
(* ================================================================== *)

Lemma list_to_map_const_lookup (f : string -> pyval) (l : list string) c :
  In c l ->
  (list_to_map (map (fun c => (c, f c)) l) : dict) !! c = Some (f c).
Proof.
  induction l as [|x l IH]; simpl; [intros []|].
  intros Hin. destruct (decide (x = c)) as [->|Hne].
  - apply lookup_insert_eq.
  - rewrite lookup_insert_ne by exact Hne. apply IH.
    destruct Hin as [->|Hin]; [congruence|exact Hin].
Qed.

Lemma to_record_lookup cols (r : dict) c :
  In c cols -> to_record cols r !! c = Some (cell r c).
Proof.
  intros Hin. unfold to_record, dict_of.
  rewrite <- map_rev.
  apply (list_to_map_const_lookup (cell r)).
  now apply in_rev in Hin.
Qed.

Lemma to_record_get cols (r : dict) c dflt :
  In c cols -> dget_or (to_record cols r) c dflt = cell r c.
Proof. intros Hin. unfold dget_or. now rewrite to_record_lookup. Qed.

Lemma truthy_text s : truthy (PStr s) = true <-> s <> "".
Proof.
  simpl. rewrite negb_true_iff. split.
  - intros Hs ->. now rewrite str_eqb_refl in Hs.
  - intros Hs. destruct (str_eqb s "") eqn:E; [|reflexivity].
    apply str_eqb_eq in E. contradiction.
Qed.






Lemma head_filter_In {A} (p : A -> bool) (l : list A) (x : A) :
  head (List.filter p l) = Some x -> In x l.
Proof.
  rewrite <- find_head_filter. intros Hf. now apply find_some in Hf.
Qed.

Lemma tool_key_column_In df col :
  tool_key_column df = Some col -> In col (columns df).
Proof.
  unfold tool_key_column. destruct (has_column df "part_name") eqn:E.
  - intros [= <-]. now apply has_column_In.
  - apply head_filter_In.
Qed.




(* ================================================================== *)
(** ** Updates *)
(* ================================================================== *)

Lemma tool_has_changes_all_same `{PyRuntime} cur new :
  ToolService.has_changes cur new = negb (all_same tool_compared_fields cur new).
Proof.
  unfold ToolService.has_changes, all_same, tool_compared_fields,
    ToolService.differs, same_value, py_neqb.
  cbn [forallb].
  repeat match goal with
  | |- context [py_eqb ?a ?b] => destruct (py_eqb a b); cbn [negb andb]; try reflexivity
  end.
Qed.

Lemma baby_has_changes_all_same `{PyRuntime} cur new :
  BabyPartService.has_changes cur new
  = negb (all_same baby_compared_fields cur new).
Proof.
  unfold BabyPartService.has_changes, all_same, baby_compared_fields,
    BabyPartService.differs, same_value, py_neqb.
  cbn [forallb].
  repeat match goal with
  | |- context [py_eqb ?a ?b] => destruct (py_eqb a b); cbn [negb andb]; try reflexivity
  end.
Qed.




(** The normalisation rule: texts are compared trimmed, an integral
    float equals its integer, and None counts as the empty text. *)
Lemma normalisation_rule `{PyRuntime} :
  (forall s t, same_value (PStr s) (PStr t) = true <-> strip s = strip t)
  /\ (forall f z, is_integer f = true -> int_of_float f = Ok z ->
        same_value (PFloat f) (PInt z) = true)
  /\ (forall z1 z2, same_value (PInt z1) (PInt z2) = true <-> z1 = z2)
  /\ same_value PNone (PStr "") = true.
Proof.
  unfold same_value. split; [|split; [|split]].
  - intros s t. cbn [ToolService.normalize_value str py_eqb]. apply str_eqb_eq.
  - intros f z Hi Hz. cbn [ToolService.normalize_value]. rewrite Hi, Hz.
    cbn [py_eqb num_of dyadic_eqb]. apply Z.eqb_refl.
  - intros z1 z2. cbn [ToolService.normalize_value py_eqb num_of dyadic_eqb].
    rewrite Z.eqb_eq. change (2 ^ (0 - Z.min 0 0)) with 1. lia.
  - reflexivity.
Qed.


Lemma get_by_tools_name_reads `{PyRuntime} name st :
  (ToolService.get_by_tools_name name st).2 = st.
Proof.
  unfold ToolService.get_by_tools_name, mbind, BaseService._get_dataframe, lift.
  destruct (file_exists st); [|reflexivity].
  destruct (ToolService.get_by_tools_name_in _ _); reflexivity.
Qed.


Lemma run_ok_value {A} (dflt : A) (p : result A * FileState) (st : FileState) :
  p.2 = st -> is_ok p.1 = true -> p = (Ok (value_of dflt p.1), st).
Proof. destruct p as [[a|e] st']; simpl; intros -> Hok; [reflexivity|discriminate]. Qed.


(* ================================================================== *)
(** ** Keys that do not resolve *)
(* ================================================================== *)

Lemma find_index_none {A} (p : A -> bool) (l : list A) :
  (forall x, In x l -> p x = false) -> BaseService.find_index p l = None.
Proof.
  induction l as [|x l IH]; intros Hp; simpl; [reflexivity|].
  rewrite (Hp x) by now left.
  rewrite IH; [reflexivity|]. intros y Hy. apply Hp. now right.
Qed.

Lemma two_pass_none_both {A} (key_of : A -> string) (query : string) (l : list A) :
  two_pass key_of query l = None ->
  (forall r, In r l -> str_eqb (key_of r) query = false)
  /\ (forall r, In r l -> str_eqb (lower (key_of r)) (lower query) = false).
Proof.
  unfold two_pass.
  destruct (List.find (fun r => str_eqb (key_of r) query) l) eqn:E1; [discriminate|].
  intros E2. split; intros r Hin.
  - exact (find_none _ _ E1 r Hin).
  - exact (find_none _ _ E2 r Hin).
Qed.

(** A query that finds nothing among the rows kept by the readers finds
    nothing in the base matcher either. *)
Lemma unresolved_in_base `{PyRuntime} (pk : string) (df : DataFrame) (q : string) :
  (has_column df pk = true ->
   two_pass (stored_key pk) (nfkc (strip q))
     (List.filter
        (fun r => negb (str_eqb (strip (str (cell r pk))) ""))
        (List.filter (fun r => notna (cell r pk)) (rows df))) = None) ->
  BaseService.resolve pk df q = None.
Proof.
  intros Hno. unfold BaseService.resolve. cbv zeta.
  destruct (has_column df pk); [|reflexivity]. cbn [negb].
  destruct (two_pass_none_both _ _ _ (Hno eq_refl)) as [H1 H2].
  assert (Hkept : forall r, In r (rows df) -> BaseService.blank_key pk r = false ->
            In r (List.filter
                    (fun r => negb (str_eqb (strip (str (cell r pk))) ""))
                    (List.filter (fun r => notna (cell r pk)) (rows df)))).
  { intros r Hin Hb. unfold BaseService.blank_key in Hb.
    apply orb_false_iff in Hb as [Hna Hbl].
    apply filter_In. split.
    - apply filter_In. split; [exact Hin|]. unfold notna. now rewrite Hna.
    - now rewrite Hbl. }
  rewrite find_index_none.
  - apply find_index_none. intros r Hin.
    destruct (BaseService.blank_key pk r) eqn:Hb; [reflexivity|]. cbn [negb andb].
    exact (H2 r (Hkept r Hin Hb)).
  - intros r Hin.
    destruct (BaseService.blank_key pk r) eqn:Hb; [reflexivity|]. cbn [negb andb].
    exact (H1 r (Hkept r Hin Hb)).
Qed.


Lemma baby_unresolved_in_base `{PyRuntime} (df : DataFrame) (q : string) :
  baby_unresolved df q ->
  BaseService.resolve BabyPartService.primary_key df q = None.
Proof.
  intros Hu. apply unresolved_in_base. intros Hc.
  unfold baby_unresolved, baby_key_column in Hu.
  unfold BabyPartService.primary_key in Hc. rewrite Hc in Hu. exact Hu.
Qed.

Lemma tool_unresolved_raises `{PyRuntime} (df : DataFrame) (q : string) :
  tool_unresolved df q ->
  exists e, ToolService.get_by_tools_name_in df q = Raise e
            /\ exn_class_of e = ValueError.
Proof.
  intros Hu. rewrite tool_resolution. unfold tool_unresolved in Hu.
  destruct (tool_key_column df) as [col|].
  - rewrite Hu. eexists. split; reflexivity.
  - eexists. split; reflexivity.
Qed.

Lemma baby_unresolved_raises `{PyRuntime} (df : DataFrame) (q : string) :
  baby_unresolved df q ->
  exists e, BabyPartService.get_by_baby_part_name_in df q = Raise e
            /\ exn_class_of e = ValueError.
Proof.
  intros Hu. rewrite baby_resolution. unfold baby_unresolved in Hu.
  destruct (baby_key_column df) as [col|].
  - rewrite Hu. eexists. split; reflexivity.
  - eexists. split; reflexivity.
Qed.

Lemma load_existing st :
  file_exists st = true ->
  BaseService._get_dataframe st
  = (Ok (BaseService.canonical_frame (file_table st)), st).
Proof. intros Hex. unfold BaseService._get_dataframe. now rewrite Hex. Qed.

(** C4.  When the file exists and the key resolves to no stored row,
    the delete of either service fails with ValueError (NotFound) and the
    file state is as before.  The tools service fails in its own lookup;
    the baby parts service falls through to the base delete, which finds
    nothing either. *)
Theorem delete_unresolved_not_found `{PyRuntime} (st : FileState) (name : string) :
  file_exists st = true ->
  let df := BaseService.canonical_frame (file_table st) in
  (tool_unresolved df name ->
     exists e, ToolService.delete_by_tools_name name st = (Raise e, st)
               /\ exn_class_of e = ValueError)
  /\ (baby_unresolved df name ->
        exists e, BabyPartService.delete_by_baby_part_name name st = (Raise e, st)
                  /\ exn_class_of e = ValueError).
Proof.
  intros Hex df. split; intros Hu.
  - destruct (tool_unresolved_raises df name Hu) as [e [He Hc]].
    exists e. split; [|exact Hc].
    unfold ToolService.delete_by_tools_name, ToolService.get_by_tools_name,
      mbind, lift.
    rewrite (load_existing st Hex). fold df. rewrite He. reflexivity.
  - destruct (baby_unresolved_raises df name Hu) as [e [He Hc]].
    eexists. split.
    + unfold BabyPartService.delete_by_baby_part_name,
        BabyPartService.get_by_baby_part_name, mtry, mbind, lift, ret.
      rewrite (load_existing st Hex). fold df. rewrite He.
      unfold isinstance. cbn [existsb is_subclass]. rewrite Hc.
      cbn [exn_class_eqb orb].
      unfold BaseService.delete, mbind, throw.
      rewrite (load_existing st Hex). fold df.
      cbn [str].
      rewrite (baby_unresolved_in_base df name Hu). reflexivity.
    + reflexivity.
Qed.

Lemma delete_unresolved_not_found_witness :
  (exists e, @ToolService.delete_by_tools_name ascii_runtime "zzz" tool_file
             = (Raise e, tool_file)
             /\ exn_class_of e = ValueError)
  /\ (exists e, @BabyPartService.delete_by_baby_part_name ascii_runtime "zzz"
                  baby_file
                = (Raise e, baby_file)
                /\ exn_class_of e = ValueError).
Proof.
  split.
  - apply (proj1 (@delete_unresolved_not_found ascii_runtime tool_file "zzz"
                    eq_refl)).
    vm_compute. reflexivity.
  - apply (proj2 (@delete_unresolved_not_found ascii_runtime baby_file "zzz"
                    eq_refl)).
    vm_compute. reflexivity.
Defined.









Lemma tool_new_data_cases `{PyRuntime} part_name data :
  (exists d, ToolService.new_data_of part_name data = Ok d)
  \/ ToolService.new_data_of part_name data = Raise overflow_exn.
Proof.
  unfold ToolService.new_data_of.
  repeat match goal with
  | |- context [ToolService._parse_number ?v] =>
      destruct (tool_parse_number_cases v) as [[? ->]| ->];
      cbn [Py.bind]; [|right; reflexivity]
  end.
  left. eexists. reflexivity.
Qed.

Lemma baby_new_data_cases `{PyRuntime} part_name data :
  (exists d, BabyPartService.new_data_of part_name data = Ok d)
  \/ BabyPartService.new_data_of part_name data = Raise overflow_exn.
Proof.
  unfold BabyPartService.new_data_of.
  destruct (baby_parse_number_cases
              (py_or (dget data "qty")
                 (py_or (dget data "Qty") (py_or (dget data "quantity") (PInt 0)))))
    as [[? ->]| ->]; cbn [Py.bind]; [|right; reflexivity].
  left. eexists. reflexivity.
Qed.





(* ================================================================== *)
(** ** Batches with records that lack a key *)
(* ================================================================== *)








(* ================================================================== *)
(** ** More on numeric parsing *)
(* ================================================================== *)



Lemma parse_number_agree `{PyRuntime} (v : pyval) :
  ToolService._parse_number v = BabyPartService._parse_number v.
Proof.
  unfold ToolService._parse_number, BabyPartService._parse_number.
  destruct (pd_isna v) eqn:Ena; destruct (py_eqb v (PStr "")) eqn:Ee;
    destruct v as [|b|z|f|s]; simpl in *; try discriminate; try reflexivity.
Qed.




Lemma parse_float_empty : parse_float "" = None.
Proof. vm_compute. reflexivity. Qed.

(** X3.  Blanks around a numeric text do not matter. *)
Theorem parse_number_ignores_blanks `{PyRuntime} (s : string) :
  ToolService._parse_number (PStr s) = ToolService._parse_number (PStr (strip s))
  /\ BabyPartService._parse_number (PStr s)
     = BabyPartService._parse_number (PStr (strip s)).
Proof.
  assert (HT : ToolService._parse_number (PStr s)
               = ToolService._parse_number (PStr (strip s))).
  { unfold ToolService._parse_number. cbn [pd_isna py_eqb orb float_of_str_of str].
    destruct (str_eqb s "") eqn:Es.
    - apply str_eqb_eq in Es. subst s. reflexivity.
    - destruct (str_eqb (strip s) "") eqn:Ess.
      + apply str_eqb_eq in Ess. rewrite Ess.
        unfold float_of_str. rewrite parse_float_empty. reflexivity.
      + now rewrite strip_idem. }
  split; [exact HT|]. now rewrite <- !parse_number_agree.
Qed.

(* ================================================================== *)
(** ** Listing and lookup together *)
(* ================================================================== *)




Lemma baby_key_column_In df col :
  baby_key_column df = Some col -> In col (columns df).
Proof.
  unfold baby_key_column. destruct (has_column df "baby_parts") eqn:E.
  - intros [= <-]. now apply has_column_In.
  - apply head_filter_In.
Qed.



Lemma two_pass_some {A} (key_of : A -> string) (query : string) (l : list A) r :
  two_pass key_of query l = Some r ->
  In r l
  /\ lower (key_of r) = lower query
  /\ ((exists r', In r' l /\ key_of r' = query) -> key_of r = query).
Proof.
  unfold two_pass.
  destruct (List.find (fun r0 => str_eqb (key_of r0) query) l) as [r1|] eqn:E1.
  - intros [= <-]. apply find_some in E1 as [Hin Hk].
    apply str_eqb_eq in Hk. split; [exact Hin|]. split; [now rewrite Hk|].
    intros _. exact Hk.
  - intros E2. apply find_some in E2 as [Hin Hk].
    apply str_eqb_eq in Hk. split; [exact Hin|]. split; [exact Hk|].
    intros [r' [Hin' Hk']]. pose proof (find_none _ _ E1 r' Hin') as Hf.
    simpl in Hf. rewrite Hk', str_eqb_refl in Hf. discriminate.
Qed.

Lemma candidates_keep_columns `{PyRuntime} (kept : DataFrame) ncol f c :
  In c (columns kept) -> In c (columns (assign_column kept ncol f)).
Proof.
  intros Hc. unfold assign_column. cbn [columns].
  destruct (has_column kept ncol); [exact Hc|].
  apply in_or_app. now left.
Qed.

Lemma cell_with_key `{PyRuntime} col ncol r c :
  c <> ncol -> cell (with_key col ncol r) c = cell r c.
Proof.
  intros Hne. unfold with_key, cell. now rewrite lookup_insert_ne.
Qed.



Lemma starts_with_refl s : starts_with s s = true.
Proof.
  induction s as [|c s IH]; simpl; [reflexivity|].
  now rewrite Ascii.eqb_refl, IH.
Qed.

Lemma starts_with_prefix p s : starts_with p (p +:+ s) = true.
Proof.
  induction p as [|c p IH]; simpl; [reflexivity|].
  now rewrite Ascii.eqb_refl, IH.
Qed.

Lemma contains_prefix p s : contains p (p +:+ s) = true.
Proof.
  destruct p as [|c p]; [now destruct s|].
  change (String c p +:+ s) with (String c (p +:+ s)).
  cbn [contains].
  change (String c (p +:+ s)) with (String c p +:+ s).
  now rewrite starts_with_prefix.
Qed.

Lemma contains_middle a c b : contains c (a +:+ c +:+ b) = true.
Proof. apply contains_app_r, contains_prefix. Qed.

Lemma concat_cons sep x y (l : list string) :
  String.concat sep (x :: y :: l) = x +:+ sep +:+ String.concat sep (y :: l).
Proof. reflexivity. Qed.

Lemma starts_with_app (needle a b : string) :
  starts_with needle a = true -> starts_with needle (a +:+ b) = true.
Proof.
  revert a. induction needle as [|c n IH]; intros a; simpl; [reflexivity|].
  destruct a as [|d a]; simpl; [discriminate|].
  intros [-> Hn]%andb_true_iff. simpl. now apply IH.
Qed.

Lemma contains_app_l (needle a b : string) :
  contains needle a = true -> contains needle (a +:+ b) = true.
Proof.
  induction a as [|c a IH].
  - simpl. rewrite orb_false_r. destruct needle; [|discriminate].
    intros _. now destruct b.
  - change (String c a +:+ b) with (String c (a +:+ b)).
    cbn [contains]. intros [Hs|Hc]%orb_true_iff.
    + change (String c (a +:+ b)) with (String c a +:+ b).
      now rewrite (starts_with_app _ _ _ Hs).
    + rewrite (IH Hc). apply orb_true_r.
Qed.

Lemma contains_quoted_concat c (l : list string) :
  In c l ->
  contains c (String.concat ", " (map (fun s => "'" +:+ s +:+ "'") l)) = true.
Proof.
  induction l as [|x l IH]; [intros []|].
  intros [->|Hin].
  - destruct l as [|y l]; cbn [map].
    + cbn [String.concat]. apply contains_middle.
    + rewrite concat_cons. apply contains_app_l, contains_middle.
  - destruct l as [|y l]; [destruct Hin|].
    cbn [map]. rewrite concat_cons.
    apply contains_app_r, contains_app_r. now apply IH.
Qed.

Lemma contains_in_column_list c (l : list string) :
  In c l -> contains c (repr_str_list l) = true.
Proof.
  intros Hin. unfold repr_str_list.
  apply contains_app_r, contains_app_l. now apply contains_quoted_concat.
Qed.

(** X7.  Without a column that can serve as key, the tools listing is empty
    and never fails, while the lookups by name fail with a ValueError
    whose message names every column the file has. *)
Theorem missing_key_column_reported `{PyRuntime} (df : DataFrame) (q : string) :
  (tool_key_column df = None ->
     ToolService.get_all_in df = Ok []
     /\ exists e, ToolService.get_by_tools_name_in df q = Raise e
                  /\ exn_class_of e = ValueError
                  /\ forall c, In c (columns df) -> contains c (exn_msg e) = true)
  /\ (baby_key_column df = None ->
        exists e, BabyPartService.get_by_baby_part_name_in df q = Raise e
                  /\ exn_class_of e = ValueError
                  /\ forall c, In c (columns df) ->
                       contains c (exn_msg e) = true).
Proof.
  split; intros Hcol.
  - split.
    + unfold ToolService.get_all_in. rewrite key_column_choice.
      fold (tool_key_column df). now rewrite Hcol.
    + rewrite tool_resolution, Hcol. eexists. split; [reflexivity|].
      split; [reflexivity|]. intros c Hc. cbn [exn_msg].
      unfold ToolService.msg_no_column.
      apply contains_app_r. now apply contains_in_column_list.
  - rewrite baby_resolution, Hcol. eexists. split; [reflexivity|].
    split; [reflexivity|]. intros c Hc. cbn [exn_msg].
    unfold BabyPartService.msg_no_column.
    apply contains_app_r. now apply contains_in_column_list.
Qed.

Lemma missing_key_column_reported_witness :
  @ToolService.get_all_in ascii_runtime unkeyed_frame = Ok []
  /\ exists e,
       @ToolService.get_by_tools_name_in ascii_runtime unkeyed_frame "Widget-A"
       = Raise e
       /\ contains "qty" (exn_msg e) = true.
Proof.
  destruct (proj1 (@missing_key_column_reported ascii_runtime unkeyed_frame
                     "Widget-A")) as [Hall (e & He & _ & Hmsg)].
  - vm_compute. reflexivity.
  - split; [exact Hall|]. exists e. split; [exact He|].
    apply Hmsg. right. left. reflexivity.
Defined.

(* ================================================================== *)
(** ** What a save writes *)
(* ================================================================== *)

Lemma mem_In c l : ToolService.mem c l = true <-> In c l.
Proof. apply existsb_str_eqb_In. Qed.

(** For a label of the frame, looking it up among the mapping entries
    whose key is a column is looking it up in the whole mapping. *)
Lemma renamed_label_in (mapping : list (string * string)) df c :
  In c (columns df) ->
  match List.find (fun kv : string * string => str_eqb kv.1 c)
          (List.filter (fun kv : string * string => has_column df kv.1) mapping) with
  | Some kv => kv.2
  | None => c
  end = header_under mapping c.
Proof.
  intros Hc. unfold header_under. rewrite find_filter_implied; [reflexivity|].
  intros [k v] Hk%str_eqb_eq. simpl in *. subst k. now apply has_column_In.
Qed.

(** A dict literal with distinct keys holds each of its entries. *)
Lemma dict_of_lookup_distinct (l : list (string * pyval)) k v :
  NoDup (map fst l) -> In (k, v) l -> dict_of l !! k = Some v.
Proof.
  intros Hnd Hin. unfold dict_of. apply elem_of_list_to_map_1.
  - apply NoDup_ListNoDup. change (List.NoDup (map fst (rev l))).
    rewrite map_rev. apply List.NoDup_rev. now apply NoDup_ListNoDup.
  - apply list_elem_of_In. now apply in_rev in Hin.
Qed.

(** The renaming step of a save: the labels become their headers, the
    rows keep their number and order, and under distinct headers every
    cell is found again under its header. *)
Lemma renamed_step (mapping : list (string * string)) (df : DataFrame) :
  let rd := List.filter (fun kv : string * string => has_column df kv.1) mapping in
  let f := fun c : string =>
             match List.find (fun kv : string * string => str_eqb kv.1 c) rd with
             | Some kv => kv.2
             | None => c
             end in
  let df1 := match rd with [] => df | _ :: _ => rename f df end in
  columns df1 = map (header_under mapping) (columns df)
  /\ exists g : dict -> dict,
       rows df1 = map g (rows df)
       /\ (NoDup (map (header_under mapping) (columns df)) ->
           forall r c, In c (columns df) ->
             cell (g r) (header_under mapping c) = cell r c).
Proof.
  intros rd f df1.
  assert (Hf : forall c, In c (columns df) -> f c = header_under mapping c).
  { intros c Hc. unfold f, rd. now apply renamed_label_in. }
  assert (Hmap : map f (columns df) = map (header_under mapping) (columns df)).
  { apply map_ext_in. exact Hf. }
  destruct rd as [|kv rd'] eqn:Erd.
  - assert (Hid : forall c, In c (columns df) -> header_under mapping c = c).
    { intros c Hc. rewrite <- (Hf c Hc). reflexivity. }
    subst df1. split.
    + rewrite <- (map_id (columns df)) at 1. symmetry. apply map_ext_in.
      exact Hid.
    + exists (fun r => r). split; [now rewrite map_id|].
      intros _ r c Hc. now rewrite (Hid c Hc).
  - subst df1. cbn [rename columns rows]. split; [exact Hmap|].
    exists (fun r => dict_of (map (fun c => (f c, cell r c)) (columns df))).
    split; [reflexivity|].
    intros Hnd r c Hc. unfold cell at 1.
    rewrite (dict_of_lookup_distinct _ (header_under mapping c) (cell r c));
      [reflexivity| |].
    + assert (Hk : map fst (map (fun c0 => (f c0, cell r c0)) (columns df))
                   = map (header_under mapping) (columns df)).
      { rewrite map_map. apply map_ext_in. intros a Ha. cbn [fst].
        exact (Hf a Ha). }
      rewrite Hk. exact Hnd.
    + apply in_map_iff. exists c. split; [|exact Hc]. now rewrite (Hf c Hc).
Qed.

(** The order of the written columns: the fixed headers that occur, in
    their fixed order, then the other labels as they come. *)
Lemma written_order_eq (order labels : list string) :
  (List.filter (fun col => existsb (str_eqb col) labels) order
   ++ List.filter
        (fun col => negb (ToolService.mem col
                            (List.filter (fun col0 => existsb (str_eqb col0) labels)
                               order)))
        labels)%list
  = (fixed_part order labels
     ++ List.filter (fun c => negb (ToolService.mem c order)) labels)%list.
Proof.
  unfold fixed_part, ToolService.mem. f_equal.
  apply filter_ext_in. intros c Hc. f_equal.
  apply eq_true_iff_eq.
  rewrite !existsb_str_eqb_In, filter_In, existsb_str_eqb_In. tauto.
Qed.

Lemma written_order_In (order labels : list string) c :
  In c (fixed_part order labels
        ++ List.filter (fun c => negb (ToolService.mem c order)) labels)%list
  <-> In c labels.
Proof.
  unfold fixed_part.
  rewrite in_app_iff, !filter_In, negb_true_iff, mem_In.
  destruct (ToolService.mem c order) eqn:E.
  - apply mem_In in E. intuition discriminate.
  - assert (~ In c order) by (rewrite <- mem_In; congruence). intuition.
Qed.


Lemma tool_saved_columns (df : DataFrame) :
  columns (ToolService.df_to_save df)
  = (fixed_part ToolService.original_order (map tool_header (columns df))
     ++ List.filter (fun c => negb (ToolService.mem c ToolService.original_order))
          (map tool_header (columns df)))%list.
Proof.
  pose proof (proj1 (renamed_step ToolService._get_original_column_mapping df))
    as Hc.
  cbv zeta in Hc.
  unfold ToolService.df_to_save. cbv zeta. cbn [columns select_columns].
  match type of Hc with columns ?d = _ => set (df1 := d) in * end.
  unfold has_column. rewrite Hc.
  apply written_order_eq.
Qed.

Lemma baby_saved_columns (df : DataFrame) :
  columns (BabyPartService.df_to_save df)
  = (fixed_part BabyPartService.original_order (map baby_header (columns df))
     ++ List.filter (fun c => negb (ToolService.mem c BabyPartService.original_order))
          (map baby_header (columns df)))%list.
Proof.
  pose proof (proj1 (renamed_step BabyPartService._get_original_column_mapping df))
    as Hc.
  cbv zeta in Hc.
  unfold BabyPartService.df_to_save. cbv zeta. cbn [columns select_columns].
  match type of Hc with columns ?d = _ => set (df1 := d) in * end.
  unfold has_column. rewrite Hc.
  apply written_order_eq.
Qed.




Lemma cell_to_record cols (r : dict) c :
  In c cols -> cell (to_record cols r) c = cell r c.
Proof. intros Hin. unfold cell at 1. now rewrite to_record_lookup. Qed.

Lemma cell_insert_ne (r : dict) k v c : k <> c -> cell (<[k := v]> r) c = cell r c.
Proof. intros Hne. unfold cell. now rewrite lookup_insert_ne. Qed.

Lemma lookup_map_some {A B} (g : A -> B) (l : list A) i a :
  l !! i = Some a -> map g l !! i = Some (g a).
Proof.
  intros Hl. change (map g l) with (g <$> l).
  now rewrite list_lookup_fmap, Hl.
Qed.

Lemma tool_saved_rows (df : DataFrame) :
  exists g : dict -> dict,
    rows (ToolService.df_to_save df) = map g (rows df)
    /\ (NoDup (map tool_header (columns df)) ->
        forall r c, In c (columns df) ->
          cell (g r) (tool_header c) = cell r c).
Proof.
  pose proof (tool_saved_columns df) as Hfinal.
  destruct (renamed_step ToolService._get_original_column_mapping df)
    as (Hc & g & Hrows & Hcells).
  cbv zeta in Hc, Hrows.
  unfold ToolService.df_to_save in *. cbv zeta in *.
  cbn [columns rows select_columns] in *.
  match type of Hc with columns ?d = _ => set (df1 := d) in * end.
  match goal with |- context [to_record ?l] => set (final := l) in * end.
  assert (Hin : forall c, In c (columns df) -> In (tool_header c) final).
  { intros c Hin. rewrite Hfinal. apply written_order_In.
    apply in_map. exact Hin. }
  destruct (has_column df1 "Brand") eqn:Eb; cbn [negb].
  - exists (fun r => to_record final (g r)). split.
    + rewrite Hrows, map_map. reflexivity.
    + intros Hnd r c Hcol. rewrite (cell_to_record _ _ _ (Hin c Hcol)).
      now apply Hcells.
  - exists (fun r => to_record final (<["Brand" := PStr ""]> (g r))). split.
    + cbn [assign_column rows]. rewrite Hrows, !map_map. reflexivity.
    + intros Hnd r c Hcol. rewrite (cell_to_record _ _ _ (Hin c Hcol)).
      rewrite cell_insert_ne; [now apply Hcells|].
      intros Hb. assert (Hx : has_column df1 "Brand" = true).
      { apply has_column_In. rewrite Hc, Hb. apply in_map. exact Hcol. }
      congruence.
Qed.

Lemma baby_saved_rows (df : DataFrame) :
  exists g : dict -> dict,
    rows (BabyPartService.df_to_save df) = map g (rows df)
    /\ (NoDup (map baby_header (columns df)) ->
        forall r c, In c (columns df) ->
          cell (g r) (baby_header c) = cell r c).
Proof.
  pose proof (baby_saved_columns df) as Hfinal.
  destruct (renamed_step BabyPartService._get_original_column_mapping df)
    as (Hc & g & Hrows & Hcells).
  cbv zeta in Hc, Hrows.
  unfold BabyPartService.df_to_save in *. cbv zeta in *.
  cbn [columns rows select_columns] in *.
  match type of Hc with columns ?d = _ => set (df1 := d) in * end.
  match goal with |- context [to_record ?l] => set (final := l) in * end.
  assert (Hin : forall c, In c (columns df) -> In (baby_header c) final).
  { intros c Hin. rewrite Hfinal. apply written_order_In.
    apply in_map. exact Hin. }
  exists (fun r => to_record final (g r)). split.
  - rewrite Hrows, map_map. reflexivity.
  - intros Hnd r c Hcol. rewrite (cell_to_record _ _ _ (Hin c Hcol)).
    now apply Hcells.
Qed.

(** X11.  A save keeps the data: when the headers of the given columns are
    distinct, the written frame has the rows of the given frame, in the
    same number and order, and every cell of a row is found in the
    written row under the header of its column. *)
Theorem saved_cells_preserved (df : DataFrame) :
  (NoDup (map tool_header (columns df)) ->
   length (rows (ToolService.df_to_save df)) = length (rows df)
   /\ forall (i : nat) r c,
        rows df !! i = Some r -> In c (columns df) ->
        exists r', rows (ToolService.df_to_save df) !! i = Some r'
                   /\ cell r' (tool_header c) = cell r c)
  /\ (NoDup (map baby_header (columns df)) ->
      length (rows (BabyPartService.df_to_save df)) = length (rows df)
      /\ forall (i : nat) r c,
           rows df !! i = Some r -> In c (columns df) ->
           exists r', rows (BabyPartService.df_to_save df) !! i = Some r'
                      /\ cell r' (baby_header c) = cell r c).
Proof.
  split; intros Hnd.
  - destruct (tool_saved_rows df) as (g & Hrows & Hcells).
    rewrite Hrows. split; [apply length_map|].
    intros i r c Hi Hc. exists (g r). split.
    + now apply lookup_map_some.
    + now apply Hcells.
  - destruct (baby_saved_rows df) as (g & Hrows & Hcells).
    rewrite Hrows. split; [apply length_map|].
    intros i r c Hi Hc. exists (g r). split.
    + now apply lookup_map_some.
    + now apply Hcells.
Qed.

Lemma saved_cells_preserved_witness :
  NoDup (map tool_header (columns shelf_frame))
  /\ length (rows (ToolService.df_to_save shelf_frame)) = 1%nat
  /\ exists r', rows (ToolService.df_to_save shelf_frame) !! 0%nat = Some r'
                /\ cell r' "Part Name" = PStr "Widget-A".
Proof.
  assert (Hnd : NoDup (map tool_header (columns shelf_frame))).
  { apply (bool_decide_unpack _). vm_compute. exact I. }
  destruct (proj1 (saved_cells_preserved shelf_frame) Hnd) as [Hlen Hcells].
  split; [exact Hnd|]. split; [exact Hlen|].
  destruct (Hcells 0%nat
              (dict_of [("shelf", PStr "B2"); ("total", PInt 5);
                        ("part_name", PStr "Widget-A")])
              "part_name" eq_refl) as (r' & Hr & Hv).
  { apply existsb_str_eqb_In. vm_compute. reflexivity. }
  exists r'. split; [exact Hr|].
  etransitivity; [exact Hv|]. vm_compute. reflexivity.
Defined.

(* ================================================================== *)
(** ** The write and its failures *)
(* ================================================================== *)

Lemma check_writable_cases st :
  (checks_pass st /\ ToolService.check_writable st = (Ok tt, st))
  \/ (~ checks_pass st /\ exists e, ToolService.check_writable st = (Raise e, st)).
Proof.
  unfold ToolService.check_writable, checks_pass.
  destruct (file_exists st); [|left; split; [now left|reflexivity]].
  destruct (file_writable st); cbn [negb].
  - destruct (open_rw_errno st) as [n|].
    + right. split; [intros [X|[_ X]]; discriminate X|].
      destruct (bool_decide _); eexists; reflexivity.
    + left. split; [now right|reflexivity].
  - right. split; [intros [X|[X _]]; discriminate X|].
    eexists; reflexivity.
Qed.






Lemma starts_with_contains p s : starts_with p s = true -> contains p s = true.
Proof. intros Hp. destruct s; simpl; rewrite Hp; reflexivity. Qed.

Lemma contains_tail a p s :
  contains (String a p) s = true -> contains p s = true.
Proof.
  induction s as [|b s IH]; cbn [contains starts_with]; [discriminate|].
  intros [Hs|Hc]%orb_true_iff.
  - apply andb_true_iff in Hs as [_ Hs].
    rewrite (starts_with_contains p s Hs). apply orb_true_r.
  - rewrite (IH Hc). apply orb_true_r.
Qed.

Lemma starts_with_shorter p q s :
  starts_with (p +:+ q) s = true -> starts_with p s = true.
Proof.
  revert s. induction p as [|a p IH]; intros s; [reflexivity|].
  change (String a p +:+ q) with (String a (p +:+ q)).
  destruct s as [|b s]; cbn [starts_with]; [discriminate|].
  intros [Ha Hs]%andb_true_iff. rewrite Ha. cbn [andb]. now apply IH.
Qed.

Lemma contains_shorter p q s :
  contains (p +:+ q) s = true -> contains p s = true.
Proof.
  induction s as [|b s IH]; cbn [contains].
  - rewrite !orb_false_r. apply starts_with_shorter.
  - intros [Hs|Hc]%orb_true_iff.
    + now rewrite (starts_with_shorter p q _ Hs).
    + rewrite (IH Hc). apply orb_true_r.
Qed.

Lemma errno_test_redundant m :
  contains "Permission denied" m || contains "Errno 13" m
  || contains "[Errno 13]" m
  = contains "Permission denied" m || contains "Errno 13" m.
Proof.
  destruct (contains "[Errno 13]" m) eqn:E; [|apply orb_false_r].
  apply contains_tail in E.
  rewrite (contains_shorter "Errno 13" "]" m E). now rewrite !orb_true_r.
Qed.

Lemma check_writable_pass st :
  checks_pass st -> ToolService.check_writable st = (Ok tt, st).
Proof.
  intros Hp. destruct (check_writable_cases st) as [[_ Hc]|[Hn _]];
    [exact Hc|contradiction].
Qed.

(** X13.  What a failing write becomes.  When the checks let the save through
    and the write fails, the caller sees: for a PermissionError, a
    PermissionError that quotes the error and lists four things to
    ensure; for another OSError, an OSError whose message wraps the
    error twice, once by the handler around the write and once by the
    outer handler; for anything else, a PermissionError with a fixed
    message if the text mentions a denied permission or errno 13, else
    an Exception that names the entity and quotes the error. *)
Theorem write_failure_translated (df : DataFrame) (st : FileState) (e : py_exn) :
  checks_pass st -> to_csv_error st = Some e ->
  (ToolService._save_dataframe df st).1
  = Raise (write_failure ToolService.entity_name (file_path st) e)
  /\ (BabyPartService._save_dataframe df st).1
     = Raise (write_failure BabyPartService.entity_name (file_path st) e).
Proof.
  intros Hp He.
  unfold ToolService._save_dataframe, BabyPartService._save_dataframe, mbind.
  rewrite (check_writable_pass st Hp).
  unfold ToolService.write_csv, to_csv. rewrite He.
  unfold ToolService.save_handlers, BabyPartService.save_handlers, write_failure.
  destruct e as [c n m]. cbn [exn_class_of exn_msg].
  rewrite <- (errno_test_redundant m).
  destruct c; cbn [isinstance existsb is_subclass exn_class_eqb orb
                     exn_class_of exn_msg fst raise];
    try (split; reflexivity);
    destruct (contains "Permission denied" m || contains "Errno 13" m
              || contains "[Errno 13]" m); split; reflexivity.
Qed.

Lemma write_failure_translated_witness :
  checks_pass (failing_file (os_error 28 "data/stock_detail.csv"))
  /\ exn_class_of
       (write_failure "tool" "data/stock_detail.csv"
          (os_error 28 "data/stock_detail.csv")) = OSError
  /\ (ToolService._save_dataframe no_brand_frame
        (failing_file (os_error 28 "data/stock_detail.csv"))).1
     = Raise (write_failure "tool" "data/stock_detail.csv"
                (os_error 28 "data/stock_detail.csv")).
Proof.
  assert (Hp : checks_pass (failing_file (os_error 28 "data/stock_detail.csv")))
    by (right; split; reflexivity).
  split; [exact Hp|]. split; [reflexivity|].
  exact (proj1 (write_failure_translated no_brand_frame
                  (failing_file (os_error 28 "data/stock_detail.csv"))
                  (os_error 28 "data/stock_detail.csv") Hp eq_refl)).
Defined.

(* ================================================================== *)
(** ** Validation and creation *)
(* ================================================================== *)

Lemma strip_empty : strip "" = "".
Proof. reflexivity. Qed.

(** The name a validation reads, [a or b or d.get(k) or ""], and the name
    a creation reads, [a or b or d.get(k, "")]: when the first is not
    blank, both are the same truthy value. *)
Lemma first_truthy_agree `{PyRuntime} (x y : pyval) (d : dict) (k : string) :
  str_eqb (strip (str (py_or x (py_or y (py_or (dget d k) (PStr ""))))))
    "" = false ->
  py_or x (py_or y (dget_or d k (PStr "")))
  = py_or x (py_or y (py_or (dget d k) (PStr "")))
  /\ truthy (py_or x (py_or y (dget_or d k (PStr "")))) = true.
Proof.
  unfold py_or, dget, dget_or.
  destruct (truthy x) eqn:Ex; [intros _; split; [reflexivity|exact Ex]|].
  destruct (truthy y) eqn:Ey; [intros _; split; [reflexivity|exact Ey]|].
  destruct (d !! k) as [v|]; cbn [from_option id].
  - destruct (truthy v) eqn:Ev; [intros _; split; [reflexivity|first [exact Ev|reflexivity]]|].
    intros Hb. cbn [str] in Hb. rewrite strip_empty in Hb. discriminate.
  - cbn [truthy]. intros Hb. cbn [str] in Hb. rewrite strip_empty in Hb.
    discriminate.
Qed.

Lemma tool_validate_cases `{PyRuntime} (isdigit : string -> bool) (data : dict) :
  ToolServiceCreate._validate isdigit data = Ok tt
  \/ ToolServiceCreate._validate isdigit data
     = Raise (Exn ValueError None "Part Name is required")
  \/ ToolServiceCreate._validate isdigit data
     = Raise (Exn ValueError None "Total stock must be a valid number").
Proof.
  unfold ToolServiceCreate._validate. cbv zeta.
  destruct (str_eqb (strip (str _)) ""); [right; left; reflexivity|].
  destruct (py_or (dget data "Total") _) as [|b|z|f|s];
    try (left; reflexivity);
    (destruct (negb (str_eqb (strip _) "")); [|left; reflexivity];
     destruct (negb (isdigit _)); [right; right; reflexivity|left; reflexivity]).
Qed.

Lemma baby_validate_cases `{PyRuntime} (isdigit : string -> bool) (data : dict) :
  BabyPartServiceCreate._validate isdigit data = Ok tt
  \/ BabyPartServiceCreate._validate isdigit data
     = Raise (Exn ValueError None "Baby Parts name is required")
  \/ BabyPartServiceCreate._validate isdigit data
     = Raise (Exn ValueError None "Quantity must be a valid number").
Proof.
  unfold BabyPartServiceCreate._validate. cbv zeta.
  destruct (str_eqb (strip (str _)) ""); [right; left; reflexivity|].
  destruct (py_or (dget data "Qty") _) as [|b|z|f|s];
    try (left; reflexivity);
    (destruct (negb (str_eqb (strip _) "")); [|left; reflexivity];
     destruct (negb (isdigit _)); [right; right; reflexivity|left; reflexivity]).
Qed.

(** X14.  Whatever [str.isdigit] answers, a validation that fails fails with a
    ValueError that carries one of two messages: the name is required,
    or the amount must be a valid number.  The message raised inside the
    guarded block (must be a number) is replaced by the block's own
    handler and never reaches the caller. *)
Theorem validation_failures `{PyRuntime} (isdigit : string -> bool)
    (data : dict) (e : py_exn) :
  (ToolServiceCreate._validate isdigit data = Raise e ->
   exn_class_of e = ValueError
   /\ (exn_msg e = "Part Name is required"
       \/ exn_msg e = "Total stock must be a valid number")
   /\ exn_msg e <> "Total stock must be a number")
  /\ (BabyPartServiceCreate._validate isdigit data = Raise e ->
      exn_class_of e = ValueError
      /\ (exn_msg e = "Baby Parts name is required"
          \/ exn_msg e = "Quantity must be a valid number")
      /\ exn_msg e <> "Quantity must be a number").
Proof.
  split.
  - destruct (tool_validate_cases isdigit data) as [-> | [-> | ->]];
      [discriminate| |]; intros [= <-]; cbn [exn_class_of exn_msg];
      (split; [reflexivity|]); (split; [auto|discriminate]).
  - destruct (baby_validate_cases isdigit data) as [-> | [-> | ->]];
      [discriminate| |]; intros [= <-]; cbn [exn_class_of exn_msg];
      (split; [reflexivity|]); (split; [auto|discriminate]).
Qed.

Lemma validation_failures_witness :
  @ToolServiceCreate._validate ascii_runtime ascii_isdigit spaced_tool
  = Raise (Exn ValueError None "Total stock must be a valid number")
  /\ exn_class_of (Exn ValueError None "Total stock must be a valid number")
     = ValueError.
Proof.
  assert (Hv : @ToolServiceCreate._validate ascii_runtime ascii_isdigit spaced_tool
               = Raise (Exn ValueError None "Total stock must be a valid number"))
    by (vm_compute; reflexivity).
  split; [exact Hv|].
  exact (proj1 (proj1 (@validation_failures ascii_runtime ascii_isdigit
                         spaced_tool _) Hv)).
Defined.

(** The keys of a dict literal. *)
Lemma dict_of_keys (l : list (string * pyval)) k :
  is_Some (dict_of l !! k) <-> In k (map fst l).
Proof.
  unfold dict_of. split.
  - intros [v Hv]. apply elem_of_list_to_map_2 in Hv.
    apply list_elem_of_In in Hv. apply in_rev in Hv.
    change k with (fst (k, v)). now apply in_map.
  - intros Hin. destruct (list_to_map (rev l) !! k) as [v|] eqn:E; [eauto|].
    exfalso. apply not_elem_of_list_to_map_2 in E. apply E.
    change ((rev l).*1) with (map fst (rev l)).
    rewrite map_rev. apply list_elem_of_In. now apply in_rev in Hin.
Qed.

Lemma dict_of_head k v (l : list (string * pyval)) :
  ~ In k (map fst l) -> dget (dict_of ((k, v) :: l)) k = v.
Proof.
  intros Hn. unfold dget, dict_of. cbn [rev].
  assert (Hl : (list_to_map (rev l ++ [(k, v)]) : dict) !! k = Some v).
  { apply elem_of_list_to_map_1'.
    - intros y [Hy|Hy]%elem_of_app.
      + exfalso. apply Hn. apply list_elem_of_In in Hy. apply in_rev in Hy.
        change k with (fst (k, y)). now apply in_map.
      + apply list_elem_of_In in Hy. destruct Hy as [[= <-]|[]]. reflexivity.
    - apply elem_of_app. right. apply list_elem_of_In. now left. }
  now rewrite Hl.
Qed.

Lemma tool_headers_fixed k :
  In k (map fst ToolService._get_original_column_mapping) ->
  In (tool_header k) ToolService.original_order.
Proof.
  intros Hk. apply existsb_str_eqb_In.
  cbn in Hk.
  repeat (destruct Hk as [<-|Hk]; [vm_compute; reflexivity|]).
  destruct Hk.
Qed.

Lemma baby_headers_fixed k :
  In k (map fst BabyPartService._get_original_column_mapping) ->
  In (baby_header k) BabyPartService.original_order.
Proof.
  intros Hk. apply existsb_str_eqb_In.
  cbn in Hk.
  repeat (destruct Hk as [<-|Hk]; [vm_compute; reflexivity|]).
  destruct Hk.
Qed.

(** X16.  What the creation of a tool hands to the base creation.  Without a
    truthy name under tools_name, Part Name or TOOLS NAME it fails with
    ValueError before anything else happens.  With one, either a count
    overflows, or the base creation is run on the record that a batch
    import builds from the same data: its fields are exactly the nine
    internal names, each written under one of the fixed headers, and its
    name is truthy. *)
Theorem tool_create_hands_over `{PyRuntime} (base_create : dict -> M dict)
    (tool_data : dict) (st : FileState) :
  (tool_has_key tool_data = false ->
   ToolServiceCreate.create base_create tool_data st
   = (Raise (Exn ValueError None "Part Name is required"), st))
  /\ (tool_has_key tool_data = true ->
      ToolServiceCreate.create base_create tool_data st
      = (Raise overflow_exn, st)
      \/ exists record,
           ToolServiceCreate.create base_create tool_data st
           = base_create record st
           /\ ToolService.bulk_csv_data tool_data = Some (Ok record)
           /\ truthy (dget record "part_name") = true
           /\ (forall k, is_Some (record !! k)
                         <-> In k (map fst ToolService._get_original_column_mapping))
           /\ (forall k, is_Some (record !! k) ->
                         In (tool_header k) ToolService.original_order)).
Proof.
  unfold tool_has_key, ToolServiceCreate.create, ToolService.bulk_csv_data.
  cbv zeta.
  set (part_name := py_or (dget tool_data "tools_name") _).
  split; intros Hk; rewrite Hk; cbn [negb]; [reflexivity|].
  unfold mbind, lift.
  repeat match goal with
  | |- context [ToolService._parse_number ?v] =>
      destruct (tool_parse_number_cases v) as [[? ->]| ->];
      cbn [Py.bind]; [|left; reflexivity]
  end.
  right. eexists. split; [reflexivity|]. split; [reflexivity|].
  split; [|split].
  - rewrite dict_of_head; [exact Hk|].
    cbn. intros Hin.
    repeat (destruct Hin as [Hin|Hin]; [discriminate Hin|]). destruct Hin.
  - intros k. rewrite dict_of_keys. reflexivity.
  - intros k Hs. apply tool_headers_fixed.
    apply dict_of_keys in Hs. exact Hs.
Qed.

Lemma tool_create_hands_over_witness :
  tool_has_key spaced_tool = true
  /\ (@ToolServiceCreate.create ascii_runtime accepting_create spaced_tool tool_file
      = (Raise overflow_exn, tool_file)
      \/ exists record,
           @ToolServiceCreate.create ascii_runtime accepting_create spaced_tool
             tool_file
           = accepting_create record tool_file
           /\ truthy (dget record "part_name") = true).
Proof.
  split; [vm_compute; reflexivity|].
  destruct (proj2 (@tool_create_hands_over ascii_runtime accepting_create
                     spaced_tool tool_file))
    as [Ho|(record & Hc & _ & Ht & _)]; [vm_compute; reflexivity| |].
  - left. exact Ho.
  - right. exists record. split; [exact Hc|exact Ht].
Defined.

(** X17.  What the creation of a baby part hands to the base creation.  It
    fails, before the base creation is run, with one of the two
    ValueErrors of the validation or with the OverflowError of an
    infinite quantity; else the base creation is run on a record with
    the two internal names, written under the two fixed headers, whose
    name is not blank and whose quantity is an integer. *)
Theorem baby_create_hands_over `{PyRuntime} (isdigit : string -> bool)
    (base_create : dict -> M dict) (data : dict) (st : FileState) :
  (exists e,
     BabyPartServiceCreate.create isdigit base_create data st = (Raise e, st)
     /\ (BabyPartServiceCreate._validate isdigit data = Raise e
         \/ (BabyPartServiceCreate._validate isdigit data = Ok tt
             /\ e = overflow_exn)))
  \/ (exists name qty,
        BabyPartServiceCreate._validate isdigit data = Ok tt
        /\ BabyPartServiceCreate.create isdigit base_create data st
           = base_create (dict_of [("baby_parts", name); ("qty", PInt qty)]) st
        /\ str_eqb (strip (str name)) "" = false
        /\ truthy name = true
        /\ (forall k,
              is_Some (dict_of [("baby_parts", name); ("qty", PInt qty)] !! k) ->
              In (baby_header k) BabyPartService.original_order)).
Proof.
  unfold BabyPartServiceCreate.create, mbind, lift.
  destruct (BabyPartServiceCreate._validate isdigit data) as [[]|e] eqn:Ev;
    [|left; exists e; split; [reflexivity|left; reflexivity]].
  cbv zeta.
  match goal with
  | |- context [BabyPartService._parse_number ?v] =>
      destruct (baby_parse_number_cases v) as [[qty ->]| ->]; cbn [Py.bind]
  end.
  - right.
    assert (Hname : str_eqb
                      (strip (str (py_or (dget data "Baby Parts")
                                     (py_or (dget data "baby_parts")
                                        (py_or (dget data "BABY PARTS")
                                           (PStr "")))))) "" = false).
    { unfold BabyPartServiceCreate._validate in Ev. cbv zeta in Ev.
      destruct (str_eqb _ "") eqn:E in Ev; [discriminate Ev|exact E]. }
    destruct (first_truthy_agree _ _ _ _ Hname) as [Heq Ht].
    eexists. exists qty. split; [reflexivity|]. split; [reflexivity|].
    split; [|split].
    + rewrite Heq. exact Hname.
    + exact Ht.
    + intros k Hs. apply baby_headers_fixed.
      apply dict_of_keys in Hs. exact Hs.
  - left. exists overflow_exn. split; [reflexivity|]. right. auto.
Qed.

Lemma baby_create_hands_over_witness :
  exists name qty,
    @BabyPartServiceCreate.create ascii_runtime ascii_isdigit accepting_create
      new_gear baby_file
    = accepting_create (dict_of [("baby_parts", name); ("qty", PInt qty)])
        baby_file
    /\ str_eqb (strip (@str ascii_runtime name)) "" = false.
Proof.
  destruct (@baby_create_hands_over ascii_runtime ascii_isdigit accepting_create
              new_gear baby_file)
    as [(e & He & _)|(name & qty & _ & Hc & Hb & _)].
  - exfalso. vm_compute in He. discriminate He.
  - exists name, qty. split; [exact Hc|exact Hb].
Defined.

(** X15.  Data that passes the validation of a tool carries a key for [create]
    and for a batch import: the stricter check implies the weaker one,
    though the two read the three name fields in different orders. *)
Theorem validated_tool_has_key `{PyRuntime} (isdigit : string -> bool)
    (data : dict) :
  ToolServiceCreate._validate isdigit data = Ok tt ->
  tool_has_key data = true
  /\ exists record, ToolService.bulk_csv_data data = Some record.
Proof.
  intros Hv.
  assert (Hname : str_eqb
                    (strip (str (py_or (dget data "Part Name")
                                   (py_or (dget data "tools_name")
                                      (py_or (dget data "TOOLS NAME")
                                         (PStr "")))))) "" = false).
  { unfold ToolServiceCreate._validate in Hv. cbv zeta in Hv.
    destruct (str_eqb _ "") eqn:E in Hv; [discriminate Hv|exact E]. }
  destruct (first_truthy_agree _ _ _ _ Hname) as [_ Ht].
  assert (Hk : tool_has_key data = true).
  { unfold tool_has_key. unfold py_or in Ht |- *.
    destruct (truthy (dget data "tools_name")) eqn:E1; [exact E1|].
    destruct (truthy (dget data "Part Name")) eqn:E2; [exact E2|].
    exact Ht. }
  split; [exact Hk|].
  unfold ToolService.bulk_csv_data. cbv zeta.
  unfold tool_has_key in Hk. rewrite Hk. cbn [negb]. eexists; reflexivity.
Qed.

Lemma validated_tool_has_key_witness :
  @ToolServiceCreate._validate ascii_runtime ascii_isdigit same_tool_payload
  = Ok tt
  /\ tool_has_key same_tool_payload = true.
Proof.
  assert (Hv : @ToolServiceCreate._validate ascii_runtime ascii_isdigit
                 same_tool_payload = Ok tt) by (vm_compute; reflexivity).
  split; [exact Hv|].
  exact (proj1 (@validated_tool_has_key ascii_runtime ascii_isdigit
                  same_tool_payload Hv)).
Defined.

(* ================================================================== *)
(** ** The listing, row by row *)
(* ================================================================== *)

Lemma to_record_missing cols (r : dict) c dflt :
  ~ In c cols -> dget_or (to_record cols r) c dflt = dflt.
Proof.
  intros Hn. unfold dget_or, to_record.
  destruct (dict_of _ !! c) as [v|] eqn:E; [|reflexivity].
  exfalso. apply Hn.
  assert (Hs : is_Some (dict_of (map (fun c0 => (c0, cell r c0)) cols) !! c))
    by (rewrite E; eauto).
  apply dict_of_keys in Hs. rewrite map_map in Hs. cbn [fst] in Hs.
  now rewrite map_id in Hs.
Qed.

Lemma to_record_field cols (r : dict) c dflt :
  dget_or (to_record cols r) c dflt
  = if ToolService.mem c cols then cell r c else dflt.
Proof.
  destruct (ToolService.mem c cols) eqn:E.
  - apply to_record_get. now apply mem_In.
  - apply to_record_missing. rewrite <- mem_In. congruence.
Qed.

(** A count read from a record of the frame: it raises exactly when its
    column is there and the cell makes the parser raise. *)
Lemma tool_count_field `{PyRuntime} cols (r : dict) k :
  (ToolService.mem k cols
   && negb (is_ok (ToolService._parse_number (cell r k))) = false
   /\ exists z, ToolService._parse_number
                  (dget_or (to_record cols r) k (PInt 0)) = Ok z)
  \/ (ToolService.mem k cols
      && negb (is_ok (ToolService._parse_number (cell r k))) = true
      /\ ToolService._parse_number (dget_or (to_record cols r) k (PInt 0))
         = Raise overflow_exn).
Proof.
  rewrite to_record_field. destruct (ToolService.mem k cols); cbn [andb].
  - destruct (tool_parse_number_cases (cell r k)) as [[z ->]| ->]; cbn [is_ok negb].
    + left. eauto.
    + right. auto.
  - left. split; [reflexivity|]. exists 0. reflexivity.
Qed.


Lemma tool_normalized_row `{PyRuntime} cols (r : dict) name :
  (count_overflows ToolService._parse_number cols tool_count_fields r = false
   /\ exists d, ToolService.normalized name (to_record cols r) = Ok d
                /\ dget d "tools_name" = PStr name)
  \/ (count_overflows ToolService._parse_number cols tool_count_fields r = true
      /\ ToolService.normalized name (to_record cols r) = Raise overflow_exn).
Proof.
  unfold count_overflows, tool_count_fields, ToolService.normalized.
  cbn [existsb].
  destruct (tool_count_field cols r "total") as [[-> [z1 ->]]|[-> ->]];
    [|right; split; reflexivity].
  destruct (tool_count_field cols r "new") as [[-> [z2 ->]]|[-> ->]];
    [|right; split; reflexivity].
  destruct (tool_count_field cols r "old") as [[-> [z3 ->]]|[-> ->]];
    [|right; split; reflexivity].
  left. split; [reflexivity|]. cbn [Py.bind]. eexists. split; [reflexivity|].
  vm_compute. reflexivity.
Qed.



Lemma kept_rows_not_blank_tool `{PyRuntime} col df r :
  In r (rows (ToolService.drop_empty_rows col df)) ->
  strip (str (cell r col)) <> "".
Proof.
  unfold ToolService.drop_empty_rows, select_rows. cbn [rows columns].
  intros [_ Hb]%filter_In. apply negb_true_iff in Hb.
  intros Heq. rewrite Heq in Hb. now rewrite str_eqb_refl in Hb.
Qed.

Lemma kept_rows_not_blank_baby `{PyRuntime} col df r :
  In r (rows (BabyPartService.drop_empty_rows col df)) ->
  strip (str (cell r col)) <> "".
Proof.
  unfold BabyPartService.drop_empty_rows, select_rows. cbn [rows columns].
  intros [_ Hb]%filter_In. apply negb_true_iff in Hb.
  intros Heq. rewrite Heq in Hb. now rewrite str_eqb_refl in Hb.
Qed.



(* ================================================================== *)
(** ** Reading a record and writing it back *)
(* ================================================================== *)

Lemma tool_normalized_shape `{PyRuntime} s row t :
  ToolService.normalized s row = Ok t ->
  exists total new old detail picture uom remark,
    t = tool_record s total new old detail picture uom remark.
Proof.
  unfold ToolService.normalized.
  destruct (ToolService._parse_number (dget_or row "total" (PInt 0))) as [z1|];
    [|discriminate].
  destruct (ToolService._parse_number (dget_or row "new" (PInt 0))) as [z2|];
    [|discriminate].
  destruct (ToolService._parse_number (dget_or row "old" (PInt 0))) as [z3|];
    [|discriminate].
  cbn [Py.bind]. intros [= <-].
  do 7 eexists. unfold tool_record. reflexivity.
Qed.

(** A successful lookup answers with the record of a stored row whose
    key is not blank. *)
Lemma tool_lookup_shape `{PyRuntime} df q t :
  tool_key_column df <> Some ToolService.normalized_col ->
  ToolService.get_by_tools_name_in df q = Ok t ->
  exists s total new old detail picture uom remark,
    s <> "" /\ t = tool_record s total new old detail picture uom remark.
Proof.
  intros Hne. rewrite tool_resolution.
  destruct (tool_key_column df) as [col|] eqn:Hcol; [|discriminate].
  destruct (two_pass _ _ _) as [r|] eqn:Etp; [|discriminate].
  apply two_pass_some in Etp as (Hin & _ & _).
  unfold tool_of_row. cbv zeta.
  rewrite to_record_get.
  2:{ apply candidates_keep_columns.
      unfold ToolService.drop_empty_rows, select_rows. cbn [columns].
      now apply tool_key_column_In. }
  rewrite cell_with_key by congruence.
  intros Ht. exists (strip (str (cell r col))).
  destruct (tool_normalized_shape _ _ _ Ht)
    as (z1 & z2 & z3 & a & b & c & d & ->).
  exists z1, z2, z3, a, b, c, d. split; [|reflexivity].
  exact (kept_rows_not_blank_tool col df r Hin).
Qed.

Lemma baby_lookup_shape `{PyRuntime} df q t :
  baby_key_column df <> Some BabyPartService.normalized_col ->
  BabyPartService.get_by_baby_part_name_in df q = Ok t ->
  exists s qty, s <> "" /\ t = BabyPartService.normalized s qty.
Proof.
  intros Hne. rewrite baby_resolution.
  destruct (baby_key_column df) as [col|] eqn:Hcol; [|discriminate].
  destruct (two_pass _ _ _) as [r|] eqn:Etp; [|discriminate].
  apply two_pass_some in Etp as (Hin & _ & _).
  unfold baby_part_of_row. cbv zeta.
  rewrite (to_record_get _ _ col).
  2:{ apply candidates_keep_columns.
      unfold BabyPartService.drop_empty_rows, select_rows. cbn [columns].
      now apply baby_key_column_In. }
  rewrite cell_with_key by congruence.
  destruct (BabyPartService._parse_number _) as [z|e]; [|discriminate].
  cbn [Py.bind]. intros [= <-].
  exists (strip (str (cell r col))), z. split; [|reflexivity].
  exact (kept_rows_not_blank_baby col df r Hin).
Qed.

Lemma py_or_twice (v dflt : pyval) : py_or v (py_or v dflt) = py_or v dflt.
Proof. unfold py_or. now destruct (truthy v). Qed.

Lemma py_or_int (z : Z) : py_or (PInt z) (PInt 0) = PInt z.
Proof.
  unfold py_or. cbn [truthy]. destruct (z =? 0) eqn:E; cbn [negb]; [|reflexivity].
  apply Z.eqb_eq in E. now subst z.
Qed.

Lemma py_or_text (s : string) : py_or (PStr s) (PStr "") = PStr s.
Proof.
  unfold py_or. cbn [truthy]. destruct (str_eqb s "") eqn:E; cbn [negb];
    [|reflexivity].
  apply str_eqb_eq in E. now subst s.
Qed.

Lemma py_or_none (v : pyval) : py_or PNone v = v.
Proof. reflexivity. Qed.

Lemma py_or_truthy_text (s : string) (v : pyval) : s <> "" -> py_or (PStr s) v = PStr s.
Proof. intros Hs. unfold py_or. now rewrite (proj2 (truthy_text s) Hs). Qed.

Lemma tool_record_same_data `{PyRuntime} name s total new old detail picture uom
    remark :
  s <> "" ->
  let t := tool_record s total new old detail picture uom remark in
  ToolService.exact_name t name = PStr s
  /\ ToolService.current_data_of (PStr s) t = ToolService.new_data_of (PStr s) t.
Proof.
  intros Hs t.
  assert (H1 : dget t "Part Name" = PStr s) by (vm_compute; reflexivity).
  assert (H2 : dget t "tools_name" = PStr s) by (vm_compute; reflexivity).
  assert (H3 : dget t "current_stock" = PInt total) by (vm_compute; reflexivity).
  assert (H4 : dget t "Total" = PInt total) by (vm_compute; reflexivity).
  assert (H5 : dget t "stock_new" = PInt new) by (vm_compute; reflexivity).
  assert (H6 : dget t "NEW" = PInt new) by (vm_compute; reflexivity).
  assert (H7 : dget t "stock_old" = PInt old) by (vm_compute; reflexivity).
  assert (H8 : dget t "OLD" = PInt old) by (vm_compute; reflexivity).
  assert (H9 : dget t "stock_detail" = PStr detail) by (vm_compute; reflexivity).
  assert (H10 : dget t "Detail Specification" = PStr detail)
    by (vm_compute; reflexivity).
  assert (H11 : dget t "detail_specification" = PNone) by (vm_compute; reflexivity).
  assert (H12 : dget t "description" = PStr detail) by (vm_compute; reflexivity).
  clearbody t.
  split.
  - unfold ToolService.exact_name. rewrite H1. now apply py_or_truthy_text.
  - unfold ToolService.current_data_of, ToolService.new_data_of.
    cbv beta zeta.
    rewrite H2, H3, H4, H5, H6, H7, H8, H9, H10, H11, H12.
    rewrite (py_or_truthy_text s _ Hs).
    rewrite py_or_none, !py_or_twice, !py_or_text.
    reflexivity.
Qed.

Lemma same_value_text `{PyRuntime} s : same_value (PStr s) (PStr s) = true.
Proof. now apply (proj1 normalisation_rule). Qed.

Lemma same_value_int `{PyRuntime} z : same_value (PInt z) (PInt z) = true.
Proof. now apply (proj1 (proj2 (proj2 normalisation_rule))). Qed.

Lemma tool_data_self_same `{PyRuntime} s t d :
  ToolService.current_data_of (PStr s) t = Ok d ->
  ToolService.has_changes d d = false.
Proof.
  unfold ToolService.current_data_of. cbv beta zeta.
  destruct (ToolService._parse_number _) as [z1|]; [|discriminate].
  destruct (ToolService._parse_number _) as [z2|]; [|discriminate].
  destruct (ToolService._parse_number _) as [z3|]; [|discriminate].
  cbn [Py.bind].
  match goal with
  | |- Ok (dict_of [ _; (_, PStr ?a); (_, PStr ?b); _; _; _; (_, PStr ?c);
                    (_, PStr ?e) ]) = _ -> _ =>
      generalize a b c e
  end.
  intros a b c e [= <-].
  rewrite tool_has_changes_all_same. unfold all_same, tool_compared_fields.
  cbn [forallb].
  match goal with |- context [dget ?x "part_name"] => set (d := x) end.
  change (dget d "part_name") with (PStr s).
  change (dget d "detail_specification") with (PStr a).
  change (dget d "picture") with (PStr b).
  change (dget d "total") with (PInt z1).
  change (dget d "new") with (PInt z2).
  change (dget d "old") with (PInt z3).
  change (dget d "uom") with (PStr c).
  change (dget d "remark") with (PStr e).
  now rewrite !same_value_text, !same_value_int.
Qed.

Lemma baby_record_same_data `{PyRuntime} name s qty :
  s <> "" ->
  let t := BabyPartService.normalized s qty in
  BabyPartService.exact_name t name = PStr s
  /\ BabyPartService.current_data_of (PStr s) t
     = BabyPartService.new_data_of (PStr s) t.
Proof.
  intros Hs t.
  assert (H1 : dget t "Baby Parts" = PStr s) by (vm_compute; reflexivity).
  assert (H2 : dget t "baby_parts" = PStr s) by (vm_compute; reflexivity).
  assert (H3 : dget t "qty" = PInt qty) by (vm_compute; reflexivity).
  assert (H4 : dget t "Qty" = PInt qty) by (vm_compute; reflexivity).
  assert (H5 : dget t "quantity" = PNone) by (vm_compute; reflexivity).
  clearbody t.
  split.
  - unfold BabyPartService.exact_name. rewrite H1. now apply py_or_truthy_text.
  - unfold BabyPartService.current_data_of, BabyPartService.new_data_of.
    cbv beta zeta.
    rewrite H2, H3, H4, H5.
    rewrite (py_or_truthy_text s _ Hs).
    rewrite py_or_none, !py_or_twice.
    reflexivity.
Qed.

Lemma baby_data_self_same `{PyRuntime} s t d :
  BabyPartService.current_data_of (PStr s) t = Ok d ->
  BabyPartService.has_changes d d = false.
Proof.
  unfold BabyPartService.current_data_of.
  destruct (BabyPartService._parse_number _) as [z|]; [|discriminate].
  cbn [Py.bind]. intros [= <-].
  rewrite baby_has_changes_all_same. unfold all_same, baby_compared_fields.
  cbn [forallb].
  match goal with |- context [dget ?x "baby_parts"] => set (d := x) end.
  change (dget d "baby_parts") with (PStr s).
  change (dget d "qty") with (PInt z).
  now rewrite same_value_text, same_value_int.
Qed.

Lemma tool_lookup_loaded `{PyRuntime} name st tool :
  ToolService.get_by_tools_name name st = (Ok tool, st) ->
  ToolService.get_by_tools_name_in
    (BaseService.canonical_frame (file_table st)) name = Ok tool.
Proof.
  unfold ToolService.get_by_tools_name, mbind, BaseService._get_dataframe, lift.
  destruct (file_exists st); [|discriminate]. now intros [= ->].
Qed.

Lemma baby_lookup_loaded `{PyRuntime} name st baby_part :
  BabyPartService.get_by_baby_part_name name st = (Ok baby_part, st) ->
  BabyPartService.get_by_baby_part_name_in
    (BaseService.canonical_frame (file_table st)) name = Ok baby_part.
Proof.
  unfold BabyPartService.get_by_baby_part_name, mbind,
    BaseService._get_dataframe, lift.
  destruct (file_exists st); [|discriminate]. now intros [= ->].
Qed.

(** X9.  Reading a record and sending it back as it was read writes nothing.
    The update of either service, given the record its own lookup has
    just returned for the name, answers that there are no changes and
    leaves the file state as it was; the only other outcome is the
    OverflowError of a count too large for a float, and the file is not
    written then either.  The key column must not be the one the lookup
    uses for its normalised keys. *)
Theorem read_then_write_back `{PyRuntime} (st : FileState) (name : string)
    (record : dict) :
  let df := BaseService.canonical_frame (file_table st) in
  (tool_key_column df <> Some ToolService.normalized_col ->
   ToolService.get_by_tools_name name st = (Ok record, st) ->
   ToolService.update_by_tools_name name record st
   = (Ok ToolService.no_changes_response, st)
   \/ ToolService.update_by_tools_name name record st
      = (Raise overflow_exn, st))
  /\ (baby_key_column df <> Some BabyPartService.normalized_col ->
      BabyPartService.get_by_baby_part_name name st = (Ok record, st) ->
      BabyPartService.update_by_baby_part_name name record st
      = (Ok ToolService.no_changes_response, st)
      \/ BabyPartService.update_by_baby_part_name name record st
         = (Raise overflow_exn, st)).
Proof.
  intros df. split; intros Hne Hget.
  - destruct (tool_lookup_shape df name record Hne (tool_lookup_loaded _ _ _ Hget))
      as (s & z1 & z2 & z3 & a & b & c & d & Hs & ->).
    destruct (tool_record_same_data name s z1 z2 z3 a b c d Hs) as [Hexact Hsame].
    unfold ToolService.update_by_tools_name, mbind, mtry, ret, lift.
    rewrite Hget, Hexact, Hsame.
    destruct (tool_new_data_cases (PStr s) (tool_record s z1 z2 z3 a b c d))
      as [[nd Hnd]|Hnd]; rewrite Hnd; [|right; reflexivity].
    rewrite <- Hsame in Hnd.
    rewrite (tool_data_self_same s _ nd Hnd). left. reflexivity.
  - destruct (baby_lookup_shape df name record Hne (baby_lookup_loaded _ _ _ Hget))
      as (s & qty & Hs & ->).
    destruct (baby_record_same_data name s qty Hs) as [Hexact Hsame].
    unfold BabyPartService.update_by_baby_part_name, mbind, mtry, ret, lift.
    rewrite Hget, Hexact, Hsame.
    destruct (baby_new_data_cases (PStr s) (BabyPartService.normalized s qty))
      as [[nd Hnd]|Hnd]; rewrite Hnd; [|right; reflexivity].
    rewrite <- Hsame in Hnd.
    rewrite (baby_data_self_same s _ nd Hnd). left. reflexivity.
Qed.

Lemma read_then_write_back_witness :
  @ToolService.get_by_tools_name ascii_runtime "widget-a" tool_file
  = (Ok (value_of ∅ (@ToolService.get_by_tools_name ascii_runtime "widget-a"
                        tool_file).1), tool_file)
  /\ (@ToolService.update_by_tools_name ascii_runtime "widget-a"
        (value_of ∅ (@ToolService.get_by_tools_name ascii_runtime "widget-a"
                        tool_file).1) tool_file
      = (Ok ToolService.no_changes_response, tool_file)
      \/ @ToolService.update_by_tools_name ascii_runtime "widget-a"
           (value_of ∅ (@ToolService.get_by_tools_name ascii_runtime "widget-a"
                           tool_file).1) tool_file
         = (Raise overflow_exn, tool_file)).
Proof.
  assert (Hget : @ToolService.get_by_tools_name ascii_runtime "widget-a" tool_file
                 = (Ok (value_of ∅ (@ToolService.get_by_tools_name ascii_runtime
                                       "widget-a" tool_file).1), tool_file)).
  { apply run_ok_value; [apply get_by_tools_name_reads|vm_compute; reflexivity]. }
  split; [exact Hget|].
  apply (proj1 (@read_then_write_back ascii_runtime tool_file "widget-a" _));
    [|exact Hget].
  vm_compute. discriminate.
Defined.

(* ================================================================== *)
(** ** Whole numbers through the number parser *)
(* ================================================================== *)

Lemma digit_not_space c : is_digit c = true -> is_space c = false.
Proof.
  unfold is_digit, is_space. cbv zeta.
  intros [H1 H2]%andb_true_iff. apply Z.leb_le in H1, H2.
  apply orb_false_iff. split; apply andb_false_iff.
  - right. apply Z.leb_gt. lia.
  - right. apply Z.leb_gt. lia.
Qed.

Lemma rstrip_fixed s :
  forallb (fun c => negb (is_space c)) (list_ascii_of_string s) = true ->
  rstrip s = s.
Proof.
  induction s as [|c s IH]; cbn [list_ascii_of_string forallb rstrip];
    [reflexivity|].
  intros [Hc Hs]%andb_true_iff. rewrite (IH Hs).
  apply negb_true_iff in Hc. rewrite Hc. now destruct s.
Qed.

Lemma strip_fixed s :
  forallb (fun c => negb (is_space c)) (list_ascii_of_string s) = true ->
  strip s = s.
Proof.
  intros Hs. unfold strip.
  assert (Hl : lstrip s = s).
  { destruct s as [|c s]; [reflexivity|].
    cbn [list_ascii_of_string forallb] in Hs.
    apply andb_true_iff in Hs as [Hc _]. apply negb_true_iff in Hc.
    cbn [lstrip]. now rewrite Hc. }
  rewrite Hl. now apply rstrip_fixed.
Qed.

Lemma uint_string_no_space d :
  forallb (fun c => negb (is_space c))
    (list_ascii_of_string (NilEmpty.string_of_uint d)) = true.
Proof.
  induction d; cbn [NilEmpty.string_of_uint list_ascii_of_string forallb];
    [reflexivity|..]; rewrite IHd; reflexivity.
Qed.

Ltac scan_digit IH dk :=
  match goal with
  | |- context [is_digit ?c] =>
      change (is_digit c) with true; cbv iota;
      let v := fresh "v" in
      set (v := digit_val c); vm_compute in v; subst v
  end;
  match goal with
  | |- scan_digits _ (10 * Z.of_N (DecimalPos.Unsigned.of_lu ?d') + ?k) _ = _ =>
      replace (10 * Z.of_N (DecimalPos.Unsigned.of_lu d') + k)
        with (Z.of_N (DecimalPos.Unsigned.of_lu (dk d')))
        by (cbn [DecimalPos.Unsigned.of_lu]; lia)
  end;
  rewrite IH; f_equal; f_equal; lia.

(** The digits of a decimal numeral, read by the scanner of [float]. *)
Lemma scan_digits_uint d d' cnt :
  scan_digits (NilEmpty.string_of_uint d) (Z.of_N (DecimalPos.Unsigned.of_lu d')) cnt
  = (Z.of_N (DecimalPos.Unsigned.of_lu (Decimal.revapp d d')),
     cnt + Z.of_nat (Decimal.nb_digits d), "").
Proof.
  revert d' cnt.
  induction d; intros d' cnt;
    cbn [NilEmpty.string_of_uint scan_digits Decimal.revapp Decimal.nb_digits].
  - f_equal. f_equal. lia.
  - scan_digit IHd Decimal.D0.
  - scan_digit IHd Decimal.D1.
  - scan_digit IHd Decimal.D2.
  - scan_digit IHd Decimal.D3.
  - scan_digit IHd Decimal.D4.
  - scan_digit IHd Decimal.D5.
  - scan_digit IHd Decimal.D6.
  - scan_digit IHd Decimal.D7.
  - scan_digit IHd Decimal.D8.
  - scan_digit IHd Decimal.D9.
Qed.

Lemma round_div_one n : round_div n 1 = n.
Proof.
  unfold round_div. cbv zeta. rewrite Z.mod_1_r, Z.div_1_r. reflexivity.
Qed.

(** The float nearest to a whole number below 2^53 is that number, and
    [int] gives it back. *)
Lemma int_of_small_float neg n :
  0 < n < 2 ^ 53 ->
  int_of_float (float_of_decimal neg n 0) = Ok (if neg then - n else n).
Proof.
  intros [Hpos Hlt].
  unfold float_of_decimal. change (0 <=? 0) with true. cbv iota.
  change (10 ^ 0) with 1. rewrite Z.mul_1_r.
  unfold float_of_ratio. cbv zeta.
  destruct (n =? 0) eqn:E0; [apply Z.eqb_eq in E0; lia|].
  change (Z.log2 1) with 0. rewrite Z.sub_0_r, Z.mul_1_l.
  assert (Hk0 : 0 <= Z.log2 n) by apply Z.log2_nonneg.
  assert (Hk53 : Z.log2 n < 53) by (apply Z.log2_lt_pow2; lia).
  destruct (Z.log2_spec n Hpos) as [Hlo Hhi].
  rewrite (proj2 (Z.leb_le 0 (Z.log2 n)) Hk0).
  rewrite (proj2 (Z.ltb_ge n (2 ^ Z.log2 n)) Hlo).
  rewrite (Z.max_l (Z.log2 n - 52) (-1074)) by lia.
  destruct (0 <=? Z.log2 n - 52) eqn:Ee.
  - apply Z.leb_le in Ee. assert (Hk : Z.log2 n - 52 = 0) by lia.
    rewrite Hk. change (2 ^ 0) with 1. rewrite !Z.mul_1_r, round_div_one.
    cbn [andb].
    assert (Hbig : (2 ^ 1024 <=? n) = false).
    { apply Z.leb_gt. apply Z.lt_trans with (2 ^ 53); [exact Hlt|].
      apply Z.pow_lt_mono_r; lia. }
    rewrite Hbig. cbn [int_of_float]. cbv zeta.
    rewrite Z2N.id by lia. rewrite Z.shiftl_0_r. reflexivity.
  - cbn [andb]. apply Z.leb_gt in Ee. rewrite round_div_one.
    cbn [int_of_float]. cbv zeta.
    assert (Hp : 0 < 2 ^ (- (Z.log2 n - 52))) by (apply Z.pow_pos_nonneg; lia).
    rewrite Z2N.id by nia.
    rewrite <- Z.shiftr_opp_r, Z.shiftr_div_pow2 by lia.
    rewrite Z.div_mul by lia. reflexivity.
Qed.

Lemma uint_string_scan_sign d :
  d <> Decimal.Nil ->
  scan_sign (NilEmpty.string_of_uint d) = (false, NilEmpty.string_of_uint d).
Proof. destruct d; [contradiction|reflexivity..]. Qed.

Lemma uint_string_not_word d w :
  d <> Decimal.Nil ->
  match w with String c _ => is_digit c = false | EmptyString => True end ->
  str_eqb (lower (NilEmpty.string_of_uint d)) w = false.
Proof.
  intros Hd Hw. destruct w as [|c w]; [now destruct d|].
  destruct (str_eqb _ _) eqn:E; [|reflexivity].
  apply str_eqb_eq in E. exfalso.
  destruct d; [contradiction|..];
    cbn [NilEmpty.string_of_uint lower] in E; injection E as Hc _;
    subst c; vm_compute in Hw; discriminate.
Qed.

(** [float] reads a decimal numeral as the float nearest to its value. *)
Lemma parse_float_digits (neg : bool) (d : Decimal.uint) :
  d <> Decimal.Nil ->
  parse_float ((if neg then "-" else "") +:+ NilEmpty.string_of_uint d)
  = Some (float_of_decimal neg (Z.of_N (Pos.of_uint d)) 0).
Proof.
  intros Hnn.
  assert (Hstrip : strip ((if neg then "-" else "")
                          +:+ NilEmpty.string_of_uint d)
                   = (if neg then "-" else "") +:+ NilEmpty.string_of_uint d).
  { apply strip_fixed. destruct neg.
    - change ("-" +:+ NilEmpty.string_of_uint d)
        with (String "-" (NilEmpty.string_of_uint d)).
      cbn [list_ascii_of_string forallb].
      rewrite uint_string_no_space. reflexivity.
    - apply uint_string_no_space. }
  assert (Hsign : scan_sign ((if neg then "-" else "")
                             +:+ NilEmpty.string_of_uint d)
                  = (neg, NilEmpty.string_of_uint d)).
  { destruct neg; [reflexivity|]. now apply uint_string_scan_sign. }
  unfold parse_float. rewrite Hstrip, Hsign.
  rewrite !(uint_string_not_word d) by (exact Hnn || reflexivity).
  cbn [orb].
  pose proof (scan_digits_uint d Decimal.Nil 0) as Hscan.
  cbn [DecimalPos.Unsigned.of_lu] in Hscan. change (Z.of_N 0) with 0 in Hscan.
  rewrite Hscan.
  change (Decimal.revapp d Decimal.Nil) with (Decimal.rev d).
  rewrite <- DecimalPos.Unsigned.of_uint_alt.
  assert (Hn : 0 < Z.of_nat (Decimal.nb_digits d)).
  { destruct d; [contradiction|..]; cbn [Decimal.nb_digits]; lia. }
  destruct (0 + Z.of_nat (Decimal.nb_digits d) + 0 =? 0) eqn:E;
    [apply Z.eqb_eq in E; lia|].
  reflexivity.
Qed.

(** [str] of a whole number other than zero, read back by [float]. *)
Lemma parse_float_str_of_Z (z : Z) :
  z <> 0 ->
  strip (str_of_Z z) = str_of_Z z
  /\ str_of_Z z <> ""
  /\ parse_float (str_of_Z z)
     = Some (float_of_decimal (z <? 0) (Z.abs z) 0).
Proof.
  intros Hz. unfold str_of_Z.
  destruct z as [|p|p]; [contradiction|..];
    cbn [Z.to_int NilZero.string_of_int Z.ltb Z.compare Z.abs];
    pose proof (DecimalPos.Unsigned.to_uint_nonnil p) as Hnn;
    assert (Hs : NilZero.string_of_uint (Pos.to_uint p)
                 = NilEmpty.string_of_uint (Pos.to_uint p))
      by (destruct (Pos.to_uint p); [contradiction|reflexivity..]);
    rewrite Hs.
  - pose proof (parse_float_digits false _ Hnn) as Hp.
    rewrite DecimalPos.Unsigned.of_to in Hp.
    split; [|split; [|exact Hp]].
    + apply strip_fixed, uint_string_no_space.
    + destruct (Pos.to_uint p); [contradiction|discriminate..].
  - pose proof (parse_float_digits true _ Hnn) as Hp.
    rewrite DecimalPos.Unsigned.of_to in Hp.
    split; [|split; [|exact Hp]].
    + apply strip_fixed. cbn [list_ascii_of_string forallb].
      rewrite uint_string_no_space. reflexivity.
    + discriminate.
Qed.

Lemma small_int_conversion (z : Z) :
  z <> 0 -> Z.abs z < 2 ^ 53 ->
  (f <~ float_of_str (str_of_Z z) ;; int_of_float f) = Ok z.
Proof.
  intros Hz Hlt. destruct (parse_float_str_of_Z z Hz) as (_ & _ & Hp).
  unfold float_of_str. rewrite Hp. cbn [Py.bind].
  rewrite int_of_small_float by lia.
  f_equal. destruct (z <? 0) eqn:E.
  - apply Z.ltb_lt in E. lia.
  - apply Z.ltb_ge in E. lia.
Qed.

(** X4.  Whole numbers survive the number parser.  A count of absolute value
    below 2^53, the range in which a float holds every whole number, is
    returned as it is by [_parse_number] of either service, whether it
    comes as a number or as its decimal text. *)
Theorem parse_number_keeps_whole_numbers `{PyRuntime} (z : Z) :
  Z.abs z < 2 ^ 53 ->
  ToolService._parse_number (PInt z) = Ok z
  /\ ToolService._parse_number (PStr (str_of_Z z)) = Ok z
  /\ BabyPartService._parse_number (PInt z) = Ok z
  /\ BabyPartService._parse_number (PStr (str_of_Z z)) = Ok z.
Proof.
  intros Hlt.
  destruct (Z.eq_dec z 0) as [->|Hz].
  { split; [|split; [|split]]; vm_compute; reflexivity. }
  destruct (parse_float_str_of_Z z Hz) as (Hstrip & Hne & _).
  pose proof (small_int_conversion z Hz Hlt) as Hconv.
  assert (Hblank : str_eqb (str_of_Z z) "" = false).
  { destruct (str_eqb _ _) eqn:E; [|reflexivity].
    apply str_eqb_eq in E. contradiction. }
  unfold ToolService._parse_number, BabyPartService._parse_number.
  cbn [pd_isna py_eqb num_of orb float_of_str_of str].
  rewrite Hblank, Hstrip, Hconv. cbn [orb try_except].
  split; [|split; [|split]]; reflexivity.
Qed.

Lemma parse_number_keeps_whole_numbers_witness :
  Z.abs (-1250) < 2 ^ 53
  /\ @ToolService._parse_number ascii_runtime (PInt (-1250)) = Ok (-1250)
  /\ @BabyPartService._parse_number ascii_runtime (PStr "-1250") = Ok (-1250).
Proof.
  assert (Hlt : Z.abs (-1250) < 2 ^ 53) by (vm_compute; reflexivity).
  destruct (@parse_number_keeps_whole_numbers ascii_runtime (-1250) Hlt)
    as (Hp & _ & _ & Hq).
  split; [exact Hlt|]. split; [exact Hp|exact Hq].
Defined.

(** X18.  The validation and the creation of a tool read the name fields in
    different orders, and only the validation trims.  When tools_name
    holds blanks only and Part Name holds a name, the validation does
    not complain about the name, and the creation hands the base
    creation a record whose key is the blank text. *)
Theorem create_key_can_be_blank `{PyRuntime} (isdigit : string -> bool)
    (base_create : dict -> M dict) (data : dict) (s t : string)
    (st : FileState) :
  dget data "tools_name" = PStr s -> s <> "" -> strip s = "" ->
  dget data "Part Name" = PStr t -> strip t <> "" ->
  ToolServiceCreate._validate isdigit data
  <> Raise (Exn ValueError None "Part Name is required")
  /\ (ToolServiceCreate.create base_create data st = (Raise overflow_exn, st)
      \/ exists record,
           ToolServiceCreate.create base_create data st = base_create record st
           /\ dget record "part_name" = PStr s
           /\ strip (str (dget record "part_name")) = "").
Proof.
  intros Hs Hsne Hblank Ht Htne.
  assert (Htt : t <> "") by (intros ->; now apply Htne).
  split.
  - unfold ToolServiceCreate._validate. cbv zeta.
    rewrite Ht, (py_or_truthy_text t _ Htt). cbn [str].
    destruct (str_eqb (strip t) "") eqn:E;
      [apply str_eqb_eq in E; contradiction|].
    destruct (py_or (dget data "Total") _) as [|b|z|f|x];
      try discriminate;
      (destruct (negb (str_eqb (strip _) "")); [|discriminate];
       destruct (negb (isdigit _)); discriminate).
  - unfold ToolServiceCreate.create. cbv zeta.
    rewrite Hs, (py_or_truthy_text s _ Hsne).
    rewrite (proj2 (truthy_text s) Hsne). cbn [negb].
    unfold mbind, lift.
    repeat match goal with
    | |- context [ToolService._parse_number ?v] =>
        destruct (tool_parse_number_cases v) as [[? ->]| ->];
        cbn [Py.bind]; [|left; reflexivity]
    end.
    right. eexists. split; [reflexivity|].
    rewrite dict_of_head.
    + split; [reflexivity|]. cbn [str]. exact Hblank.
    + cbn. intros Hin.
      repeat (destruct Hin as [Hin|Hin]; [discriminate Hin|]). destruct Hin.
Qed.

Lemma create_key_can_be_blank_witness :
  @ToolServiceCreate._validate ascii_runtime ascii_isdigit two_named_tool = Ok tt
  /\ (@ToolServiceCreate.create ascii_runtime accepting_create two_named_tool
        tool_file = (Raise overflow_exn, tool_file)
      \/ exists record,
           @ToolServiceCreate.create ascii_runtime accepting_create
             two_named_tool tool_file
           = accepting_create record tool_file
           /\ dget record "part_name" = PStr "  ").
Proof.
  split; [vm_compute; reflexivity|].
  destruct (proj2 (@create_key_can_be_blank ascii_runtime ascii_isdigit
                     accepting_create two_named_tool "  " "Drill" tool_file
                     eq_refl ltac:(discriminate) eq_refl eq_refl
                     ltac:(vm_compute; discriminate)))
    as [Ho|(record & Hc & Hk & _)].
  - left. exact Ho.
  - right. exists record. split; [exact Hc|exact Hk].
Defined.

(* ================================================================== *)
(** ** A row with an infinite count *)
(* ================================================================== *)

Lemma mem_app_last c l x :
  c <> x -> ToolService.mem c (l ++ [x])%list = ToolService.mem c l.
Proof.
  intros Hne. unfold ToolService.mem. rewrite existsb_app. cbn [existsb].
  destruct (str_eqb c x) eqn:E; [apply str_eqb_eq in E; contradiction|].
  now rewrite !orb_false_r.
Qed.

Lemma mem_candidates `{PyRuntime} (kept : DataFrame) ncol f c :
  c <> ncol ->
  ToolService.mem c (columns (assign_column kept ncol f))
  = ToolService.mem c (columns kept).
Proof.
  intros Hne. unfold assign_column. cbn [columns].
  destruct (has_column kept ncol); [reflexivity|]. now apply mem_app_last.
Qed.

Lemma tool_candidate_overflows `{PyRuntime} col df r :
  count_overflows ToolService._parse_number
    (columns (tool_candidates col df)) tool_count_fields
    (with_key col ToolService.normalized_col r)
  = count_overflows ToolService._parse_number (columns df) tool_count_fields r.
Proof.
  unfold count_overflows, tool_count_fields, tool_candidates. cbn [existsb].
  rewrite !mem_candidates by discriminate.
  rewrite !cell_with_key by discriminate.
  reflexivity.
Qed.

Lemma tool_lookup_overflows `{PyRuntime} df name col r :
  tool_key_column df = Some col ->
  two_pass (stored_key col) (nfkc (strip name))
    (rows (ToolService.drop_empty_rows col df)) = Some r ->
  count_overflows ToolService._parse_number (columns df) tool_count_fields r
  = true ->
  ToolService.get_by_tools_name_in df name = Raise overflow_exn.
Proof.
  intros Hcol Htp Hov. rewrite tool_resolution, Hcol, Htp.
  unfold tool_of_row. cbv zeta.
  match goal with
  | |- ToolService.normalized ?s (to_record ?cols ?r') = _ =>
      destruct (tool_normalized_row cols r' s) as [(Hf & _)|(_ & Hr)];
      [|exact Hr]
  end.
  rewrite tool_candidate_overflows in Hf. congruence.
Qed.

Lemma baby_lookup_overflows `{PyRuntime} df name col r :
  baby_key_column df = Some col ->
  has_column df "qty" = true ->
  two_pass (stored_key col) (nfkc (strip name))
    (rows (BabyPartService.drop_empty_rows col df)) = Some r ->
  count_overflows BabyPartService._parse_number (columns df) ["qty"] r = true ->
  BabyPartService.get_by_baby_part_name_in df name = Raise overflow_exn.
Proof.
  intros Hcol Hqty Htp Hov. rewrite baby_resolution, Hcol, Htp.
  unfold baby_part_of_row. cbv zeta.
  assert (Hq : In "qty" (columns (baby_candidates col df))).
  { apply candidates_keep_columns.
    unfold BabyPartService.drop_empty_rows, select_rows. cbn [columns].
    now apply has_column_In. }
  unfold BabyPartService.find_qty_col.
  rewrite (proj2 (has_column_In _ _) Hq).
  rewrite (to_record_get _ _ "qty" _ Hq).
  rewrite cell_with_key by discriminate.
  unfold count_overflows in Hov. cbn [existsb] in Hov.
  rewrite orb_false_r in Hov. apply andb_true_iff in Hov as [_ Hov].
  destruct (baby_parse_number_cases (cell r "qty")) as [[z Hz]|Hz];
    rewrite Hz in Hov |- *; [discriminate Hov|reflexivity].
Qed.

(** X19.  A stored row with an infinite count is stuck.  When the name
    resolves to a row that holds, in a count column, a value on which the
    number parser raises, the lookup by name, the update and the delete
    by name all fail with OverflowError and leave the file state as it
    was, whatever data the update is given.  For the baby parts the
    quantity column is taken under its canonical name. *)
Theorem poisoned_row_is_stuck `{PyRuntime} (st : FileState) (name col : string)
    (r data : dict) :
  file_exists st = true ->
  let df := BaseService.canonical_frame (file_table st) in
  (tool_key_column df = Some col ->
   two_pass (stored_key col) (nfkc (strip name))
     (rows (ToolService.drop_empty_rows col df)) = Some r ->
   count_overflows ToolService._parse_number (columns df) tool_count_fields r
   = true ->
   ToolService.get_by_tools_name name st = (Raise overflow_exn, st)
   /\ ToolService.update_by_tools_name name data st = (Raise overflow_exn, st)
   /\ ToolService.delete_by_tools_name name st = (Raise overflow_exn, st))
  /\ (baby_key_column df = Some col ->
      has_column df "qty" = true ->
      two_pass (stored_key col) (nfkc (strip name))
        (rows (BabyPartService.drop_empty_rows col df)) = Some r ->
      count_overflows BabyPartService._parse_number (columns df) ["qty"] r
      = true ->
      BabyPartService.get_by_baby_part_name name st = (Raise overflow_exn, st)
      /\ BabyPartService.update_by_baby_part_name name data st
         = (Raise overflow_exn, st)
      /\ BabyPartService.delete_by_baby_part_name name st
         = (Raise overflow_exn, st)).
Proof.
  intros Hex df. split.
  - intros Hcol Htp Hov.
    assert (Hget : ToolService.get_by_tools_name name st
                   = (Raise overflow_exn, st)).
    { unfold ToolService.get_by_tools_name, mbind, lift.
      rewrite (load_existing st Hex). fold df.
      now rewrite (tool_lookup_overflows df name col r Hcol Htp Hov). }
    split; [exact Hget|]. split.
    + unfold ToolService.update_by_tools_name, mbind, mtry.
      rewrite Hget. reflexivity.
    + unfold ToolService.delete_by_tools_name, mbind.
      rewrite Hget. reflexivity.
  - intros Hcol Hqty Htp Hov.
    assert (Hget : BabyPartService.get_by_baby_part_name name st
                   = (Raise overflow_exn, st)).
    { unfold BabyPartService.get_by_baby_part_name, mbind, lift.
      rewrite (load_existing st Hex). fold df.
      now rewrite (baby_lookup_overflows df name col r Hcol Hqty Htp Hov). }
    split; [exact Hget|]. split.
    + unfold BabyPartService.update_by_baby_part_name, mbind, mtry.
      rewrite Hget. reflexivity.
    + unfold BabyPartService.delete_by_baby_part_name, mbind, mtry.
      rewrite Hget. reflexivity.
Qed.

Lemma poisoned_row_is_stuck_witness :
  file_exists poisoned_file = true
  /\ @ToolService.get_by_tools_name ascii_runtime "bolt" poisoned_file
     = (Raise overflow_exn, poisoned_file)
  /\ @ToolService.update_by_tools_name ascii_runtime "bolt" changed_tool_payload
       poisoned_file
     = (Raise overflow_exn, poisoned_file)
  /\ @ToolService.delete_by_tools_name ascii_runtime "bolt" poisoned_file
     = (Raise overflow_exn, poisoned_file).
Proof.
  split; [reflexivity|].
  apply (proj1 (@poisoned_row_is_stuck ascii_runtime poisoned_file "bolt"
                  "part_name"
                  (dict_of [("part_name", PStr "Bolt"); ("total", PStr "inf")])
                  changed_tool_payload eq_refl)).
  - vm_compute. reflexivity.
  - vm_compute. reflexivity.
  - vm_compute. reflexivity.
Defined.
